(** * CS_Valve_rankings: the standings dashboard

    A shallow embedding of [CS_Valve_rankings.py]: the pipe-table parser
    [parse_markdown_table], the cached fetcher [fetch_leaderboard_data] and
    the presenter [display_leaderboard], followed by the properties of the
    written specification that are settled on them.

    Python [str] values are modelled as [string]; one [ascii] stands for one
    code point below 256, and the character classes ([str.isspace], the
    regular expression classes [\w] and [\d]) are Python's on that range. *)

From Stdlib Require Import ZArith Ascii String List Bool Lia.
From stdpp Require Import base gmap strings.
Import ListNotations.

Local Open Scope Z_scope.

(** ** Python string and list primitives *)

Module Py.

Definition code (c : ascii) : N := N_of_ascii c.

(** [str.isspace] on one character: TAB..CR, FS..US, space, NEL, NBSP. *)
Definition isspace (c : ascii) : bool :=
  let n := code c in
  ((9 <=? n) && (n <=? 13) || (28 <=? n) && (n <=? 32)
   || (n =? 133) || (n =? 160))%N.

(** The class [\d] of [re] on [str] patterns. *)
Definition isdigit (c : ascii) : bool :=
  let n := code c in ((48 <=? n) && (n <=? 57))%N.

(** The class [\w] of [re] on [str] patterns: alphanumerics and [_]. *)
Definition isword (c : ascii) : bool :=
  let n := code c in
  ((48 <=? n) && (n <=? 57) || (65 <=? n) && (n <=? 90) || (n =? 95)
   || (97 <=? n) && (n <=? 122)
   || (n =? 170) || (n =? 178) || (n =? 179) || (n =? 181)
   || (n =? 185) || (n =? 186) || (188 <=? n) && (n <=? 190)
   || (192 <=? n) && (n <=? 214) || (216 <=? n) && (n <=? 246)
   || (248 <=? n))%N.

Fixpoint lstrip (s : string) : string :=
  match s with
  | EmptyString => EmptyString
  | String c r => if isspace c then lstrip r else s
  end.

Fixpoint rstrip (s : string) : string :=
  match s with
  | EmptyString => EmptyString
  | String c r =>
      match rstrip r with
      | EmptyString => if isspace c then EmptyString else String c EmptyString
      | r' => String c r'
      end
  end.

(** [s.strip()] *)
Definition strip (s : string) : string := rstrip (lstrip s).

(** [s.split(sep)] for a one-character separator: never empty. *)
Fixpoint split (sep : ascii) (s : string) : list string :=
  match s with
  | EmptyString => [EmptyString]
  | String c r =>
      if Ascii.eqb c sep then EmptyString :: split sep r
      else match split sep r with
           | h :: t => String c h :: t
           | [] => [String c EmptyString]
           end
  end.

(** [s.startswith(p)] *)
Definition startswith (p s : string) : bool := String.prefix p s.

(** [c in s] for a one-character [c]. *)
Fixpoint contains (c : ascii) (s : string) : bool :=
  match s with
  | EmptyString => false
  | String a r => Ascii.eqb a c || contains c r
  end.

(** [s.index(c)]: the position of the first [c]; [None] stands for the
    [ValueError] that Python raises when there is none. *)
Fixpoint index (c : ascii) (s : string) : option nat :=
  match s with
  | EmptyString => None
  | String a r =>
      if Ascii.eqb a c then Some O
      else match index c r with
           | Some i => Some (S i)
           | None => None
           end
  end.

(** A slice bound brought into [0..n]: negative bounds count from the end. *)
Definition bound (n : nat) (i : Z) : nat :=
  if i <? 0 then Z.to_nat (Z.max 0 (i + Z.of_nat n))
  else Nat.min (Z.to_nat i) n.

(** [s[start:stop]] on strings. *)
Definition str_slice (s : string) (start stop : Z) : string :=
  let n := String.length s in
  let a := bound n start in
  let b := bound n stop in
  String.substring a (b - a) s.

(** [s[start:]] on strings. *)
Definition str_from (s : string) (start : Z) : string :=
  let n := String.length s in
  let a := bound n start in
  String.substring a (n - a) s.

(** [l[start:stop]] on lists. *)
Definition slice {A} (l : list A) (start stop : Z) : list A :=
  let n := length l in
  let a := bound n start in
  let b := bound n stop in
  firstn (b - a) (skipn a l).

(** [l[start:]] on lists. *)
Definition from {A} (l : list A) (start : Z) : list A :=
  skipn (bound (length l) start) l.

(** [l[-1] = v]: [None] stands for the [IndexError] on an empty list. *)
Definition set_last {A} (l : list A) (v : A) : option (list A) :=
  match l with
  | [] => None
  | _ => Some (removelast l ++ [v])
  end.

(** [l[-1]]: [None] stands for the [IndexError] on an empty list. *)
Definition get_last {A} (l : list A) : option A := last l.

(** [next((i for i, x in enumerate(l) if p(x)), None)] *)
Fixpoint find_index {A} (p : A -> bool) (l : list A) : option nat :=
  match l with
  | [] => None
  | x :: r =>
      if p x then Some O
      else match find_index p r with
           | Some i => Some (S i)
           | None => None
           end
  end.

End Py.

(** ** The timestamp pattern

    [(?:Standings|Regional Standings for \w+) as of (\d{4}-\d{2}-\d{2})],
    written as a backtracking matcher in continuation-passing style.  Each
    piece consumes a prefix of the text and hands the rest to its
    continuation; the answer is the text captured by the only group. *)

Module Re.

(** A literal: the rest of the text after [lit], if the text starts so. *)
Fixpoint lit (l s : string) : option string :=
  match l, s with
  | EmptyString, _ => Some s
  | String a l', String b s' => if Ascii.eqb a b then lit l' s' else None
  | String _ _, EmptyString => None
  end.

(** [\w+], greedy: the longest run is tried first, then shorter ones. *)
Fixpoint word_plus (k : string -> option string) (s : string)
  : option string :=
  match s with
  | EmptyString => None
  | String c r =>
      if Py.isword c then
        match word_plus k r with
        | Some d => Some d
        | None => k r
        end
      else None
  end.

(** [\d{n}]: exactly [n] digits, returned with the rest of the text. *)
Fixpoint digits (n : nat) (s : string) : option (string * string) :=
  match n with
  | O => Some (EmptyString, s)
  | S n' =>
      match s with
      | String c r =>
          if Py.isdigit c then
            match digits n' r with
            | Some (d, rest) => Some (String c d, rest)
            | None => None
            end
          else None
      | EmptyString => None
      end
  end.

(** The group [(\d{4}-\d{2}-\d{2})] at the head of [s]. *)
Definition date (s : string) : option string :=
  match digits 4 s with
  | Some (y, r1) =>
      match lit "-" r1 with
      | Some r2 =>
          match digits 2 r2 with
          | Some (m, r3) =>
              match lit "-" r3 with
              | Some r4 =>
                  match digits 2 r4 with
                  | Some (d, _) => Some (y +:+ "-" +:+ m +:+ "-" +:+ d)
                  | None => None
                  end
              | None => None
              end
          | None => None
          end
      | None => None
      end
  | None => None
  end.

(** What follows the alternation: [ as of ] and the group. *)
Definition as_of (s : string) : option string :=
  match lit " as of " s with
  | Some r => date r
  | None => None
  end.

(** The whole pattern anchored at the head of [s]; the first alternative
    is tried first. *)
Definition match_here (s : string) : option string :=
  let second :=
    match lit "Regional Standings for " s with
    | Some r => word_plus as_of r
    | None => None
    end in
  match lit "Standings" s with
  | Some r =>
      match as_of r with
      | Some d => Some d
      | None => second
      end
  | None => second
  end.

(** [re.search(pattern, s)], reduced to [group(1)] of the leftmost match. *)
Fixpoint search (s : string) : option string :=
  match match_here s with
  | Some d => Some d
  | None =>
      match s with
      | EmptyString => None
      | String _ r => search r
      end
  end.

End Re.

(** ** The table parser *)

Inductive exception : Type :=
| ValueError (msg : string)
| IndexError (msg : string).

(** What [pd.DataFrame(data, columns=headers)] holds. *)
Record DataFrame : Type := mkDataFrame {
  columns : list string;
  rows : list (list string)
}.

Definition newline : ascii := ascii_of_nat 10.
Definition pipe : ascii := "|"%char.
Definition lparen : ascii := "("%char.

Definition header_marker : string := "| Standing |".

Definition blob_prefix : string :=
  "https://github.com/ValveSoftware/counter-strike_regional_standings/blob/main/".

(** [[cell.strip() for cell in line.split('|')[1:-1]]] *)
Definition cells (line : string) : list string :=
  map Py.strip (Py.slice (Py.split pipe line) 1 (-1)).

(** [markdown_text.strip().split('\n')] *)
Definition lines_of (markdown_text : string) : list string :=
  Py.split newline (Py.strip markdown_text).

(** The timestamp of the first line, or ["Unknown"]. *)
Definition timestamp_of (first_line : string) : string :=
  match Re.search first_line with
  | Some d => d
  | None => "Unknown"
  end.

(** [f"https://.../blob/main/{detail_link[detail_link.index('(') + 1:-1]}"] *)
Definition link_of (detail_link : string) : exception + string :=
  match Py.index lparen detail_link with
  | None => inl (ValueError "substring not found")
  | Some i =>
      inr (blob_prefix +:+ Py.str_slice detail_link (Z.of_nat i + 1) (-1))
  end.

(** The guard of the inner [if]: [row and len(row) == len(headers)]. *)
Definition row_fits (headers row : list string) : bool :=
  negb (Nat.eqb (length row) 0) && Nat.eqb (length row) (length headers).

(** The guard of the outer [if]: [line.startswith('|') and '|' in line]. *)
Definition is_candidate (line : string) : bool :=
  Py.startswith "|" line && Py.contains pipe line.

(** The [for] loop over the lines after the separator; [data] is the list
    the loop appends to. *)
Fixpoint extract_rows (headers : list string) (ls : list string)
         (data : list (list string)) : exception + list (list string) :=
  match ls with
  | [] => inr data
  | line :: rest =>
      if is_candidate line then
        let row := cells line in
        if row_fits headers row then
          match Py.get_last row with
          | None => inl (IndexError "list index out of range")
          | Some detail_link =>
              match link_of detail_link with
              | inl e => inl e
              | inr url =>
                  match Py.set_last row url with
                  | None =>
                      inl (IndexError "list assignment index out of range")
                  | Some row' => extract_rows headers rest (data ++ [row'])
                  end
              end
          end
        else extract_rows headers rest data
      else extract_rows headers rest data
  end.

(** Everything after the timestamp: header search, header extraction, the
    row loop and the final check. *)
Definition parse_table (lines : list string) : exception + DataFrame :=
  match Py.find_index (Py.startswith header_marker) lines with
  | None =>
      inl (ValueError "Could not find the header row in the Markdown table.")
  | Some header_index =>
      let headers := cells (nth header_index lines EmptyString) in
      match Py.set_last headers "Details" with
      | None => inl (IndexError "list assignment index out of range")
      | Some headers =>
          match extract_rows headers
                  (Py.from lines (Z.of_nat header_index + 2)) [] with
          | inl e => inl e
          | inr [] =>
              inl (ValueError "No data rows found in the Markdown table.")
          | inr data => inr (mkDataFrame headers data)
          end
      end
  end.

Definition parse_markdown_table (markdown_text : string)
  : exception + (DataFrame * string) :=
  let lines := lines_of markdown_text in
  let timestamp := timestamp_of (nth 0 lines EmptyString) in
  match parse_table lines with
  | inl e => inl e
  | inr df => inr (df, timestamp)
  end.

(** ** The fetcher and the presenter *)

(** The dictionary [LEADERBOARD_URLS], in the order of its keys. *)
Definition LEADERBOARD_URLS : list (string * string) :=
  [ ("Global",
     "https://raw.githubusercontent.com/ValveSoftware/counter-strike_regional_standings/main/standings_global.md");
    ("Americas",
     "https://raw.githubusercontent.com/ValveSoftware/counter-strike_regional_standings/main/standings_americas.md");
    ("Asia",
     "https://raw.githubusercontent.com/ValveSoftware/counter-strike_regional_standings/main/standings_asia.md");
    ("Europe",
     "https://raw.githubusercontent.com/ValveSoftware/counter-strike_regional_standings/main/standings_europe.md") ].

(** [LEADERBOARD_URLS[name]] *)
Fixpoint url_of (d : list (string * string)) (name : string)
  : option string :=
  match d with
  | [] => None
  | (k, v) :: r => if String.eqb k name then Some v else url_of r name
  end.

(** What [requests.get] answers, as far as the program reads it. *)
Record Response : Type := mkResponse {
  status_code : Z;
  text : string
}.

(** The calls into the page: [st.error], [st.dataframe], [st.markdown],
    [st.text] and [st.code], with the arguments that carry data. *)
Inductive element : Type :=
| st_error (body : string)
| st_dataframe (df : DataFrame) (height : Z)
| st_markdown (body : string)
| st_text (body : string)
| st_code (body language : string).

(** The state the program acts on: the entries of the fetch cache (text and
    instant of retrieval, by source location), the GET requests issued so
    far and the elements put on the page so far, oldest first. *)
Record world : Type := mkWorld {
  cache : gmap string (string * Z);
  requests : list string;
  page : list element
}.

Definition M (A : Type) : Type := world -> A * world.

Definition ret {A} (a : A) : M A := fun w => (a, w).

Definition bind {A B} (m : M A) (f : A -> M B) : M B :=
  fun w => let (a, w') := m w in f a w'.

Notation "'do' x <- m ; k" := (bind m (fun x => k))
  (at level 10, x name, m at level 100, k at level 200).
Notation "'run' m ; k" := (bind m (fun _ => k))
  (at level 10, m at level 100, k at level 200).

(** One element more on the page. *)
Definition show (e : element) : M unit :=
  fun w => (tt, mkWorld (cache w) (requests w) (page w ++ [e])).

(** The validity window of the cache, in seconds: [ttl=24*60*60]. *)
Definition ttl : Z := 24 * 60 * 60.

(** Truth value of [markdown_data]: [None] and the empty text are false. *)
Definition truthy (o : option string) : bool :=
  match o with
  | Some (String _ _) => true
  | _ => false
  end.

(** [str(e)] *)
Definition str_of_exception (e : exception) : string :=
  match e with
  | ValueError msg => msg
  | IndexError msg => msg
  end.

Section Dashboard.

(** The remote side: what a GET of a location answers at an instant. *)
Variable remote : string -> Z -> Response.

(** [datetime.now(pst).strftime("%Y-%m-%d %H:%M:%S %Z")] at an instant. *)
Variable pacific : Z -> string.

(** [requests.get(url)], issued at the instant [now]. *)
Definition requests_get (now : Z) (url : string) : M Response :=
  fun w => (remote url now,
            mkWorld (cache w) (requests w ++ [url]) (page w)).

(** The body of [fetch_leaderboard_data]. *)
Definition fetch_body (now : Z) (url : string) : M (option string) :=
  do response <- requests_get now url;
  if status_code response =? 200 then ret (Some (text response))
  else run show (st_error ("Failed to fetch data from " +:+ url));
       ret None.

(** Modelled from the spec: the decorator [st.cache_data] belongs to the
    Streamlit library and is not part of the repository.  Section 4.1:
    the cache is keyed by the source location; a valid (non-expired)
    entry is returned without a network call; otherwise the body runs,
    and on success its text is stored with the current instant as its
    creation time.  An entry is valid while its age is below the
    window. *)
Definition cache_data (window : Z)
           (body : Z -> string -> M (option string))
           (now : Z) (key : string) : M (option string) :=
  fun w =>
    let miss :=
      let (r, w') := body now key w in
      match r with
      | Some v =>
          (Some v,
           mkWorld (<[key := (v, now)]> (cache w')) (requests w') (page w'))
      | None => (None, w')
      end in
    match cache w !! key with
    | Some (v, t) => if now - t <? window then (Some v, w) else miss
    | None => miss
    end.

(** [@st.cache_data(ttl=24*60*60) def fetch_leaderboard_data(url)] *)
Definition fetch_leaderboard_data : Z -> string -> M (option string) :=
  cache_data ttl fetch_body.

(** The body of [display_leaderboard] after the fetch. *)
Definition render (now : Z) (markdown_data : option string) : M unit :=
  if truthy markdown_data then
    let markdown_data := default EmptyString markdown_data in
    match parse_markdown_table markdown_data with
    | inr (df, timestamp) =>
        run show (st_dataframe df
                    (35 * Z.of_nat (length (rows df)) + 38));
        run show (st_markdown
                ("<p style='text-align: right; color: gray; font-size: small;'>Standings as of: "
                 +:+ timestamp +:+ "</p>"));
        show (st_markdown
                ("<p style='text-align: right; color: gray; font-size: small;'>Last fetched: "
                 +:+ pacific now +:+ "</p>"))
    | inl e =>
        run show (st_error ("Error parsing the leaderboard data: "
                            +:+ str_of_exception e));
        run show (st_text "Raw markdown data (first 1000 characters):");
        run show (st_code (Py.str_slice markdown_data 0 1000) "markdown");
        run show (st_text "Last 1000 characters of markdown data:");
        show (st_code (Py.str_from markdown_data (-1000)) "markdown")
    end
  else ret tt.

(** [display_leaderboard(leaderboard_name)], run at the instant [now];
    [None] stands for the [KeyError] of a name that is not a key. *)
Definition display_leaderboard (now : Z) (leaderboard_name : string)
  : option (M unit) :=
  match url_of LEADERBOARD_URLS leaderboard_name with
  | None => None
  | Some url =>
      Some (do markdown_data <- fetch_leaderboard_data now url;
            render now markdown_data)
  end.

End Dashboard.

(** ** The entry point *)




Section Main.

Variable remote : string -> Z -> Response.
Variable pacific : Z -> string.



End Main.

(** ** Notions used to state the properties *)

(** A line of the loop that yields a row: both guards hold. *)
Definition kept (headers : list string) (line : string) : bool :=
  is_candidate line && row_fits headers (cells line).

(** A line whose number of cells is the number of columns. *)
Definition same_width (headers : list string) (line : string) : bool :=
  Nat.eqb (length (cells line)) (length headers).

(** The lines the loop runs over, given the index of the header line. *)
Definition candidates (lines : list string) (header_index : nat)
  : list string :=
  Py.from lines (Z.of_nat header_index + 2).

(** Calls of the fetcher for one location at the instants of a list, in
    order: the answers, and the state after the last call. *)
Fixpoint fetch_each (remote : string -> Z -> Response) (instants : list Z)
         (url : string) (w : world) : list (option string) * world :=
  match instants with
  | [] => ([], w)
  | now :: rest =>
      let (r, w') := fetch_leaderboard_data remote now url w in
      let (rs, w'') := fetch_each remote rest url w' in
      (r :: rs, w'')
  end.

(** The row that the loop appends for a line it keeps: the cells of the
    line, the last one replaced by the link built from it. *)
Definition yields (line : string) (row : list string) : Prop :=
  exists (raw : string) (i : nat),
    last (cells line) = Some raw /\
    Py.index lparen raw = Some i /\
    row = removelast (cells line)
          ++ [blob_prefix +:+ Py.str_slice raw (Z.of_nat i + 1) (-1)].

(** The column names read from a header line. *)
Definition headers_of (header_line : string) : list string :=
  removelast (cells header_line) ++ ["Details"].

Definition missing_header : exception :=
  ValueError "Could not find the header row in the Markdown table.".

Definition no_data_rows : exception :=
  ValueError "No data rows found in the Markdown table.".

Definition substring_not_found : exception :=
  ValueError "substring not found".

(** The last character of a text. *)
Fixpoint last_char (s : string) : option ascii :=
  match s with
  | EmptyString => None
  | String c EmptyString => Some c
  | String _ r => last_char r
  end.

(** The position of the last [c] in a text. *)
Fixpoint last_index (c : ascii) (s : string) : option nat :=
  match s with
  | EmptyString => None
  | String a r =>
      match last_index c r with
      | Some j => Some (S j)
      | None => if Ascii.eqb a c then Some O else None
      end
  end.

Definition rparen : ascii := ")"%char.

(** The link rule in the words of the specification: the text strictly
    between the first opening and the last closing parenthesis, when both
    are there in this order. *)
Definition spec_between_parens (s : string) : option string :=
  match Py.index lparen s, last_index rparen s with
  | Some i, Some j =>
      if (i <? j)%nat then Some (String.substring (S i) (j - S i) s)
      else None
  | _, _ => None
  end.

Definition spec_link (raw : string) : option string :=
  match spec_between_parens raw with
  | Some path => Some (blob_prefix +:+ path)
  | None => None
  end.

(** A text of the shape [YYYY-MM-DD]. *)
Definition is_date (d : string) : bool :=
  match Re.date d with
  | Some d' => String.eqb d d'
  | None => false
  end.

(** A non-empty run of word characters. *)
Fixpoint all_word (s : string) : bool :=
  match s with
  | EmptyString => true
  | String c r => Py.isword c && all_word r
  end.

(** The pattern in the words of the specification: somewhere on the line
    stands [Standings as of D], or [Regional Standings for W as of D] with
    [W] a word, where [D] has the shape of a date. *)
Definition spec_match (line d : string) : Prop :=
  exists pre post : string,
    is_date d = true /\
    (line = pre +:+ "Standings as of " +:+ d +:+ post \/
     exists w : string,
       w <> EmptyString /\ all_word w = true /\
       line = pre +:+ "Regional Standings for " +:+ w +:+ " as of "
              +:+ d +:+ post).

(** The number of occurrences of a character in a text. *)
Fixpoint count_char (c : ascii) (s : string) : nat :=
  match s with
  | EmptyString => O
  | String a r => if Ascii.eqb a c then S (count_char c r) else count_char c r
  end.

(** A text made of whitespace only. *)
Fixpoint all_space (s : string) : bool :=
  match s with
  | EmptyString => true
  | String c r => Py.isspace c && all_space r
  end.


Definition caption_standings (timestamp : string) : string :=
  "<p style='text-align: right; color: gray; font-size: small;'>Standings as of: "
  +:+ timestamp +:+ "</p>".

Definition caption_fetched (last_updated : string) : string :=
  "<p style='text-align: right; color: gray; font-size: small;'>Last fetched: "
  +:+ last_updated +:+ "</p>".

(** The three elements of a tab whose document was parsed. *)
Definition table_view (df : DataFrame) (timestamp last_updated : string)
  : list element :=
  [ st_dataframe df (35 * Z.of_nat (length (rows df)) + 38);
    st_markdown (caption_standings timestamp);
    st_markdown (caption_fetched last_updated) ].

(** The five elements of a tab whose document was not parsed. *)
Definition failure_view (e : exception) (markdown_data : string)
  : list element :=
  [ st_error ("Error parsing the leaderboard data: " +:+ str_of_exception e);
    st_text "Raw markdown data (first 1000 characters):";
    st_code (Py.str_slice markdown_data 0 1000) "markdown";
    st_text "Last 1000 characters of markdown data:";
    st_code (Py.str_from markdown_data (-1000)) "markdown" ].



(** A text made of decimal digits only. *)
Fixpoint all_digit (s : string) : bool :=
  match s with
  | EmptyString => true
  | String c r => Py.isdigit c && all_digit r
  end.

(** What the presenter shows for the text the fetcher hands over, given the
    text of the clock: nothing, the table with its two captions, or the
    error with the two excerpts. *)
Definition view_of (last_updated : string) (markdown_data : option string)
  : list element :=
  match markdown_data with
  | Some (String c r) =>
      match parse_markdown_table (String c r) with
      | inr (df, timestamp) => table_view df timestamp last_updated
      | inl e => failure_view e (String c r)
      end
  | _ => []
  end.

(** What [display_leaderboard] does once the location is known: fetch,
    then show. *)
Definition pipeline (remote : string -> Z -> Response)
           (pacific : Z -> string) (now : Z) (url : string) : M unit :=
  do markdown_data <- fetch_leaderboard_data remote now url;
  render pacific now markdown_data.

(** What is new on a page: the elements after those of the page before. *)
Definition shown_since (before after : world) : list element :=
  skipn (length (page before)) (page after).



(** A cell as the parser leaves it: trimmed, and free of the two
    separators. *)
Definition clean_cell (c : string) : Prop :=
  Py.strip c = c /\
  Py.contains pipe c = false /\
  Py.contains newline c = false.

(** ** Sample documents *)

Definition nl : string := String newline EmptyString.

(** The document of the end-to-end scenario. *)
Definition doc_scenario : string :=
  "Standings as of 2024-01-10" +:+ nl +:+
  "| Standing | Team | Points | Region | Details |" +:+ nl +:+
  "|---|---|---|---|---|" +:+ nl +:+
  "| 1 | Alpha | 1000 | EU | Profile(standings/alpha.md) |".

Definition scenario_table : DataFrame :=
  mkDataFrame
    ["Standing"; "Team"; "Points"; "Region"; "Details"]
    [["1"; "Alpha"; "1000"; "EU";
      "https://github.com/ValveSoftware/counter-strike_regional_standings/blob/main/standings/alpha.md"]].

(** A document whose header gives the last column another name. *)
Definition doc_renamed : string :=
  "Standings as of 2024-01-10" +:+ nl +:+
  "| Standing | Team | Link |" +:+ nl +:+
  "|---|---|---|" +:+ nl +:+
  "| 1 | Alpha | View(a) |".

Definition renamed_table : DataFrame :=
  mkDataFrame
    ["Standing"; "Team"; "Details"]
    [["1"; "Alpha";
      "https://github.com/ValveSoftware/counter-strike_regional_standings/blob/main/a"]].

(** A document whose last cell goes on after the closing parenthesis. *)
Definition doc_trailing : string :=
  "Standings as of 2024-01-10" +:+ nl +:+
  "| Standing | Details |" +:+ nl +:+
  "|---|---|" +:+ nl +:+
  "| 1 | View(a)b |".

(** A document whose header line is its first line, indented. *)
Definition doc_indented : string :=
  "  | Standing | Details |" +:+ nl +:+
  "|---|---|" +:+ nl +:+
  "| 1 | View(a) |".

Definition small_table : DataFrame :=
  mkDataFrame
    ["Standing"; "Details"]
    [["1";
      "https://github.com/ValveSoftware/counter-strike_regional_standings/blob/main/a"]].

(** A document that starts with an empty line. *)
Definition doc_blank_first : string :=
  nl +:+
  "Standings as of 2024-03-15" +:+ nl +:+
  "| Standing | Details |" +:+ nl +:+
  "|---|---|" +:+ nl +:+
  "| 1 | View(a) |".

(** A document with a row that has no parenthesis in its last cell, between
    two rows that have one. *)
Definition doc_no_paren : string :=
  "Standings as of 2024-01-10" +:+ nl +:+
  "| Standing | Details |" +:+ nl +:+
  "|---|---|" +:+ nl +:+
  "| 1 | View(a) |" +:+ nl +:+
  "| 2 | plain |" +:+ nl +:+
  "| 3 | View(c) |".

(** Lines before a header line, the separator and a row: the row right
    after the header stands where the separator is expected. *)
Definition lines_shifted : list string :=
  ["Standings as of 2024-01-10"; "";
   "| Standing | Details |"; "| 1 | View(a) |"; "| 2 | View(b) |"].

(** A document with a header and a row of another width. *)
Definition doc_no_rows : string :=
  "Standings as of 2024-01-10" +:+ nl +:+
  "| Standing | Details |" +:+ nl +:+
  "|---|---|" +:+ nl +:+
  "| 1 | 2 | View(a) |".

(** The scenario with one more line, of another width. *)
Definition doc_mixed : string :=
  doc_scenario +:+ nl +:+ "| 2 | Beta |".

(** ** Sample worlds *)

(** A remote side that always answers 200 with the scenario document. *)
Definition remote_scenario (url : string) (now : Z) : Response :=
  mkResponse 200 doc_scenario.

(** A remote side that always answers 200 with an empty body. *)
Definition remote_empty (url : string) (now : Z) : Response :=
  mkResponse 200 EmptyString.

(** A clock text for the caption [Last fetched]. *)
Definition pacific_fixed (now : Z) : string := "2024-01-10 12:00:00 PST".

(** The state at the start of the process. *)
Definition world0 : world := mkWorld ∅ [] [].

Definition url_global : string :=
  "https://raw.githubusercontent.com/ValveSoftware/counter-strike_regional_standings/main/standings_global.md".




(** A remote side that answers 404 for the global standings and the
    scenario document for the other regions. *)
Definition remote_global_down (url : string) (now : Z) : Response :=
  if String.eqb url url_global then mkResponse 404 "Not Found"
  else mkResponse 200 doc_scenario.

(** A clock for the tabs: one second apart. *)
Definition clock_seconds (i : nat) : Z := Z.of_nat i.

(** ** Facts on the primitives *)

Section PrimitiveFacts.

Local Open Scope nat_scope.

Lemma split_not_nil (sep : ascii) (s : string) : Py.split sep s <> [].
Proof.
  destruct s as [|c r]; simpl; [discriminate|].
  destruct (Ascii.eqb c sep); [discriminate|].
  destruct (Py.split sep r); discriminate.
Qed.

Lemma bound_of_nat (n k : nat) : Py.bound n (Z.of_nat k) = Nat.min k n.
Proof.
  unfold Py.bound.
  destruct (Z.ltb_spec (Z.of_nat k) 0) as [H|H]; [lia|].
  now rewrite Nat2Z.id.
Qed.

Lemma bound_minus_one (n : nat) : Py.bound n (-1) = n - 1.
Proof. unfold Py.bound. simpl. lia. Qed.

(** [l[1:-1]] drops the first and the last element. *)
Lemma slice_inner {A} (l : list A) : Py.slice l 1 (-1) = removelast (tl l).
Proof.
  unfold Py.slice.
  change 1%Z with (Z.of_nat 1).
  rewrite bound_of_nat, bound_minus_one.
  destruct l as [|x [|y t]]; try reflexivity.
  rewrite removelast_firstn_len. simpl tl.
  replace (Nat.min 1 (length (x :: y :: t))) with 1 by (simpl; lia).
  simpl skipn. f_equal. simpl. lia.
Qed.

(** [l[k:]] for a bound that is not negative. *)
Lemma from_of_nat {A} (l : list A) (k : nat) :
  Py.from l (Z.of_nat k) = skipn k l.
Proof.
  unfold Py.from. rewrite bound_of_nat.
  destruct (Nat.le_gt_cases k (length l)) as [H|H].
  - now rewrite Nat.min_l.
  - rewrite Nat.min_r by lia.
    rewrite !skipn_all2; auto; lia.
Qed.

Lemma candidates_skipn (lines : list string) (hi : nat) :
  candidates lines hi = skipn (hi + 2) lines.
Proof.
  unfold candidates.
  replace (Z.of_nat hi + 2)%Z with (Z.of_nat (hi + 2)) by lia.
  apply from_of_nat.
Qed.

Lemma cells_eq (line : string) :
  cells line = map Py.strip (removelast (tl (Py.split pipe line))).
Proof. unfold cells. now rewrite slice_inner. Qed.

Lemma startswith_app (p s : string) :
  Py.startswith p s = true -> exists r, s = p +:+ r.
Proof.
  unfold Py.startswith. revert s.
  induction p as [|a p IH]; intros s H; simpl in *.
  - now exists s.
  - destruct s as [|b s]; [discriminate|]. simpl in H.
    destruct (Ascii.ascii_dec a b) as [->|]; [|discriminate].
    destruct (IH _ H) as [r ->]. now exists r.
Qed.

(** A header line has at least one cell. *)
Lemma header_cells_not_nil (line : string) :
  Py.startswith header_marker line = true -> cells line <> [].
Proof.
  intros H. apply startswith_app in H as [r ->].
  rewrite cells_eq. unfold header_marker. simpl.
  change (String.append EmptyString r) with r.
  pose proof (split_not_nil pipe r) as Hr.
  destruct (Py.split pipe r) as [|h t]; [contradiction|].
  simpl. discriminate.
Qed.

Lemma length_replace_last {A} (l : list A) (v : A) :
  l <> [] -> length (removelast l ++ [v]) = length l.
Proof.
  induction l as [|x [|y t] IH]; intros H; [contradiction|reflexivity|].
  change (S (length (removelast (y :: t) ++ [v])) = S (length (y :: t))).
  f_equal. apply IH. discriminate.
Qed.

Lemma set_last_some {A} (l l' : list A) (v : A) :
  Py.set_last l v = Some l' ->
  l' = removelast l ++ [v] /\ length l' = length l /\ last l' = Some v.
Proof.
  destruct l as [|x t]; [discriminate|].
  intros [= <-]. split; [reflexivity|]. split.
  - apply (length_replace_last (x :: t)). discriminate.
  - apply last_snoc.
Qed.

Lemma set_last_not_nil {A} (l : list A) (v : A) :
  l <> [] -> Py.set_last l v = Some (removelast l ++ [v]).
Proof. destruct l; [contradiction|reflexivity]. Qed.

Lemma find_index_some {A} (p : A -> bool) (l : list A) (i : nat) (d : A) :
  Py.find_index p l = Some i ->
  i < length l /\ p (nth i l d) = true /\
  forall j, j < i -> p (nth j l d) = false.
Proof.
  revert i. induction l as [|x r IH]; intros i; simpl; [discriminate|].
  destruct (p x) eqn:Hx.
  - intros [= <-]. repeat split; [lia|assumption|lia].
  - destruct (Py.find_index p r) as [k|]; [|discriminate].
    intros [= <-]. destruct (IH k eq_refl) as (Hk & Hp & Hb).
    repeat split; [lia|assumption|].
    intros [|j] Hj; [assumption|]. apply Hb. lia.
Qed.

Lemma find_index_none {A} (p : A -> bool) (l : list A) :
  Py.find_index p l = None <-> Forall (fun x => p x = false) l.
Proof.
  induction l as [|x r IH]; simpl.
  - split; auto.
  - destruct (p x) eqn:Hx.
    + split; [discriminate|]. intros H. inversion H; congruence.
    + destruct (Py.find_index p r).
      * split; [discriminate|]. intros H. inversion H; subst.
        apply IH in H3. discriminate.
      * split; auto. intros _. constructor; [assumption|now apply IH].
Qed.

End PrimitiveFacts.

(** ** Facts on the row loop *)

Section LoopFacts.

Local Open Scope nat_scope.

Variable headers : list string.

Lemma row_fits_spec (row : list string) :
  row_fits headers row = true <->
  row <> [] /\ length row = length headers.
Proof.
  unfold row_fits. rewrite andb_true_iff, negb_true_iff.
  rewrite Nat.eqb_neq, Nat.eqb_eq.
  destruct row; simpl; intuition (congruence || lia).
Qed.

Lemma index_none (c : ascii) (s : string) :
  Py.index c s = None <-> Py.contains c s = false.
Proof.
  induction s as [|a r IH]; simpl; [tauto|].
  destruct (Ascii.eqb a c); simpl; [split; discriminate|].
  destruct (Py.index c r); [|tauto].
  split; [discriminate|]. intros H. apply IH in H. discriminate.
Qed.

(** One step of the loop on a line that is skipped. *)
Lemma extract_rows_skip (line : string) (rest : list string)
      (data : list (list string)) :
  kept headers line = false ->
  extract_rows headers (line :: rest) data = extract_rows headers rest data.
Proof.
  unfold kept. simpl. intros H.
  destruct (is_candidate line); [|reflexivity].
  simpl in H. now rewrite H.
Qed.

(** One step of the loop on a line that is kept. *)
Lemma extract_rows_keep (line : string) (rest : list string)
      (data : list (list string)) :
  kept headers line = true ->
  exists raw, last (cells line) = Some raw /\
    extract_rows headers (line :: rest) data =
    match Py.index lparen raw with
    | None => inl substring_not_found
    | Some i =>
        extract_rows headers rest
          (data ++ [removelast (cells line)
                    ++ [blob_prefix
                        +:+ Py.str_slice raw (Z.of_nat i + 1) (-1)]])
    end.
Proof.
  unfold kept. rewrite andb_true_iff. intros [Hc Hf].
  pose proof Hf as Hf'. apply row_fits_spec in Hf' as [Hne _].
  simpl. rewrite Hc, Hf. unfold Py.get_last.
  destruct (last (cells line)) as [raw|] eqn:Hl.
  - exists raw. split; [reflexivity|]. unfold link_of.
    destruct (Py.index lparen raw); [|reflexivity].
    now rewrite set_last_not_nil.
  - apply last_None in Hl. contradiction.
Qed.

(** The loop fails in one way only. *)
Lemma extract_rows_inl (ls : list string) (data : list (list string))
      (e : exception) :
  extract_rows headers ls data = inl e -> e = substring_not_found.
Proof.
  revert data. induction ls as [|line rest IH]; intros data; [discriminate|].
  destruct (kept headers line) eqn:Hk.
  - destruct (extract_rows_keep line rest data Hk) as (raw & _ & ->).
    destruct (Py.index lparen raw); [apply IH|congruence].
  - rewrite extract_rows_skip by assumption. apply IH.
Qed.

(** What the loop returns: the rows of the kept lines, in order, after
    the rows it started from. *)
Lemma extract_rows_inr (ls : list string) (data out : list (list string)) :
  extract_rows headers ls data = inr out ->
  exists new, out = data ++ new /\
              Forall2 yields (List.filter (kept headers) ls) new.
Proof.
  revert data. induction ls as [|line rest IH]; intros data; simpl List.filter.
  - intros [= <-]. exists []. split; [now rewrite app_nil_r|constructor].
  - destruct (kept headers line) eqn:Hk.
    + destruct (extract_rows_keep line rest data Hk) as (raw & Hl & ->).
      destruct (Py.index lparen raw) as [i|] eqn:Hi; [|discriminate].
      intros H. apply IH in H as (new & -> & Hnew).
      eexists (_ :: new). split; [now rewrite <- app_assoc|].
      constructor; [|assumption]. now exists raw, i.
    + rewrite extract_rows_skip by assumption. apply IH.
Qed.

(** Lines of another width can be taken away: the loop does the same. *)
Lemma extract_rows_same_width (ls : list string)
      (data : list (list string)) :
  extract_rows headers (List.filter (same_width headers) ls) data =
  extract_rows headers ls data.
Proof.
  revert data. induction ls as [|line rest IH]; intros data; [reflexivity|].
  simpl List.filter. destruct (same_width headers line) eqn:Hw.
  - destruct (kept headers line) eqn:Hk.
    + destruct (extract_rows_keep line rest data Hk) as (raw & Hl & ->).
      destruct (extract_rows_keep line
                  (List.filter (same_width headers) rest) data Hk)
        as (raw' & Hl' & ->).
      assert (raw' = raw) as -> by congruence.
      destruct (Py.index lparen raw); [apply IH|reflexivity].
    + rewrite !extract_rows_skip by assumption. apply IH.
  - rewrite IH. symmetry. apply extract_rows_skip.
    unfold kept, row_fits. unfold same_width in Hw. rewrite Hw.
    now rewrite !andb_false_r.
Qed.

End LoopFacts.

(** ** Facts on the parser *)

Section ParserFacts.

Local Open Scope nat_scope.

Lemma parse_table_missing (lines : list string) :
  Py.find_index (Py.startswith header_marker) lines = None ->
  parse_table lines = inl missing_header.
Proof. unfold parse_table. now intros ->. Qed.

Lemma parse_table_found (lines : list string) (hi : nat) :
  Py.find_index (Py.startswith header_marker) lines = Some hi ->
  parse_table lines =
  let headers := headers_of (nth hi lines EmptyString) in
  match extract_rows headers (candidates lines hi) [] with
  | inl e => inl e
  | inr [] => inl no_data_rows
  | inr data => inr (mkDataFrame headers data)
  end.
Proof.
  intros H. unfold parse_table. rewrite H.
  destruct (find_index_some _ _ _ EmptyString H) as (_ & Hm & _).
  rewrite set_last_not_nil by now apply header_cells_not_nil.
  reflexivity.
Qed.

(** What a table returned by the parser is made of. *)
Lemma parse_table_inr (lines : list string) (df : DataFrame) :
  parse_table lines = inr df ->
  exists hi,
    Py.find_index (Py.startswith header_marker) lines = Some hi /\
    columns df = headers_of (nth hi lines EmptyString) /\
    rows df <> [] /\
    extract_rows (columns df) (candidates lines hi) [] = inr (rows df).
Proof.
  intros H.
  destruct (Py.find_index (Py.startswith header_marker) lines)
    as [hi|] eqn:Hf.
  - rewrite (parse_table_found _ _ Hf) in H. cbv zeta in H.
    exists hi. split; [reflexivity|].
    destruct (extract_rows _ _ _) as [e|[|r data]] eqn:He;
      try discriminate.
    injection H as <-. simpl. repeat split; [discriminate|assumption].
  - rewrite parse_table_missing in H by assumption. discriminate.
Qed.

Lemma parse_markdown_table_inr (markdown_text : string) (df : DataFrame)
      (timestamp : string) :
  parse_markdown_table markdown_text = inr (df, timestamp) <->
  parse_table (lines_of markdown_text) = inr df /\
  timestamp = timestamp_of (nth 0 (lines_of markdown_text) EmptyString).
Proof.
  unfold parse_markdown_table. cbv zeta.
  destruct (parse_table (lines_of markdown_text)) as [e|df'].
  - split; [discriminate|]. intros [H _]. discriminate.
  - split.
    + intros [= <- <-]. now split.
    + intros [[= <-] ->]. reflexivity.
Qed.

Lemma parse_markdown_table_inl (markdown_text : string) (e : exception) :
  parse_markdown_table markdown_text = inl e <->
  parse_table (lines_of markdown_text) = inl e.
Proof.
  unfold parse_markdown_table. cbv zeta.
  destruct (parse_table (lines_of markdown_text)) as [e'|df'].
  - split; intros [= <-]; reflexivity.
  - split; discriminate.
Qed.

Lemma yields_width (headers : list string) (line : string)
      (row : list string) :
  kept headers line = true -> yields line row ->
  length row = length headers.
Proof.
  unfold kept. rewrite andb_true_iff. intros [_ Hf].
  apply row_fits_spec in Hf as [Hne Hlen].
  intros (raw & i & _ & _ & ->).
  now rewrite length_replace_last.
Qed.

Lemma Forall2_filter_width (headers : list string) (ls : list string)
      (new : list (list string)) :
  Forall2 yields (List.filter (kept headers) ls) new ->
  Forall (fun row => length row = length headers) new.
Proof.
  remember (List.filter (kept headers) ls) as ks eqn:Hks.
  assert (Hall : Forall (fun l => kept headers l = true) ks).
  { subst ks. apply List.Forall_forall. intros l Hl.
    apply List.filter_In in Hl. tauto. }
  clear Hks. intros H. induction H as [|line row ks new Hy _ IH].
  - constructor.
  - inversion Hall; subst. constructor; [|now apply IH].
    eapply yields_width; eassumption.
Qed.

Lemma find_index_firstn_app {A} (p : A -> bool) (l r : list A)
      (i k : nat) :
  Py.find_index p l = Some i -> i < k ->
  Py.find_index p (firstn k l ++ r) = Some i.
Proof.
  revert i k. induction l as [|x t IH]; intros i k; simpl; [discriminate|].
  destruct k as [|k]; [lia|]. simpl.
  destruct (p x); [auto|].
  destruct (Py.find_index p t) as [j|] eqn:Hj; [|discriminate].
  intros [= <-] Hk. rewrite (IH j k eq_refl) by lia. reflexivity.
Qed.

Lemma nth_firstn_app {A} (l r : list A) (i k : nat) (d : A) :
  i < k -> i < length l -> nth i (firstn k l ++ r) d = nth i l d.
Proof.
  revert i k. induction l as [|x t IH]; intros i k Hk Hl; simpl in Hl; [lia|].
  destruct k as [|k]; [lia|]. destruct i as [|i]; [reflexivity|].
  simpl. apply IH; lia.
Qed.

Lemma skipn_firstn_filter {A} (f : A -> bool) (l : list A) (k : nat) :
  skipn k (firstn k l ++ List.filter f (skipn k l)) =
  List.filter f (skipn k l).
Proof.
  revert l. induction k as [|k IH]; intros l; [reflexivity|].
  destruct l as [|x t]; [reflexivity|]. simpl. apply IH.
Qed.

End ParserFacts.

(** ** Properties of the parser *)

(** C1. On the four-line document of the end-to-end scenario the parser
    returns the five column names [Standing, Team, Points, Region,
    Details], the single row [1, Alpha, 1000, EU, <blob
    URL>/standings/alpha.md] and the timestamp [2024-01-10]. *)
Theorem C1_end_to_end_scenario :
  parse_markdown_table doc_scenario
  = inr (mkDataFrame
           ["Standing"; "Team"; "Points"; "Region"; "Details"]
           [["1"; "Alpha"; "1000"; "EU";
             "https://github.com/ValveSoftware/counter-strike_regional_standings/blob/main/standings/alpha.md"]],
         "2024-01-10").
Proof. vm_compute. reflexivity. Qed.

(** C3. When the parser succeeds, every row of the table has as many cells
    as there are column names; the rows are those of the lines the loop
    keeps, in order, so a line after the separator whose number of cells is
    not the number of columns yields no row; and taking all such lines out
    of the document leaves the result as it is: they are passed over
    without failure. *)
Theorem C3_row_width (markdown_text : string) (df : DataFrame)
        (timestamp : string) :
  parse_markdown_table markdown_text = inr (df, timestamp) ->
  let lines := lines_of markdown_text in
  Forall (fun row => length row = length (columns df)) (rows df) /\
  exists hi,
    Py.find_index (Py.startswith header_marker) lines = Some hi /\
    Forall2 yields
      (List.filter (kept (columns df)) (candidates lines hi)) (rows df) /\
    (forall line, same_width (columns df) line = false ->
                  kept (columns df) line = false) /\
    parse_table
      (firstn (hi + 2) lines
       ++ List.filter (same_width (columns df)) (candidates lines hi))
    = inr df.
Proof.
  intros H lines. apply parse_markdown_table_inr in H as [H _].
  fold lines in H. pose proof H as Hp.
  apply parse_table_inr in H as (hi & Hf & Hc & Hne & He).
  pose proof He as Hrows.
  apply extract_rows_inr in Hrows as (new & Hnew & Hy).
  simpl in Hnew. subst new.
  split; [eapply Forall2_filter_width; eassumption|].
  exists hi. split; [assumption|]. split; [assumption|]. split.
  - intros line Hw. unfold kept, row_fits. unfold same_width in Hw.
    rewrite Hw. now rewrite !andb_false_r.
  - destruct (find_index_some _ _ _ EmptyString Hf) as (Hlt & _ & _).
    set (rest := List.filter (same_width (columns df)) (candidates lines hi)).
    assert (Hf' : Py.find_index (Py.startswith header_marker)
                    (firstn (hi + 2) lines ++ rest) = Some hi)
      by (apply find_index_firstn_app; [assumption|lia]).
    rewrite (parse_table_found _ _ Hf'). cbv zeta.
    rewrite nth_firstn_app by lia. rewrite <- Hc.
    rewrite (candidates_skipn (firstn (hi + 2) lines ++ rest)).
    unfold rest. rewrite candidates_skipn, skipn_firstn_filter.
    rewrite extract_rows_same_width. rewrite <- candidates_skipn, He.
    destruct df as [cols [|r data]]; simpl in *; [contradiction|reflexivity].
Qed.

Lemma C3_row_width_witness :
  let lines := lines_of doc_mixed in
  Forall (fun row => length row = length (columns scenario_table))
         (rows scenario_table) /\
  exists hi,
    Py.find_index (Py.startswith header_marker) lines = Some hi /\
    Forall2 yields
      (List.filter (kept (columns scenario_table)) (candidates lines hi))
      (rows scenario_table) /\
    (forall line, same_width (columns scenario_table) line = false ->
                  kept (columns scenario_table) line = false) /\
    parse_table
      (firstn (hi + 2) lines
       ++ List.filter (same_width (columns scenario_table))
            (candidates lines hi))
    = inr scenario_table.
Proof.
  apply (C3_row_width doc_mixed scenario_table "2024-01-10").
  vm_compute. reflexivity.
Defined.

(** C4. When the parser succeeds, the last column name is [Details],
    whatever the header line of the document called that column. *)
Theorem C4_last_column_details (markdown_text : string) (df : DataFrame)
        (timestamp : string) :
  parse_markdown_table markdown_text = inr (df, timestamp) ->
  last (columns df) = Some "Details".
Proof.
  intros H. apply parse_markdown_table_inr in H as [H _].
  apply parse_table_inr in H as (hi & _ & -> & _).
  unfold headers_of. apply last_snoc.
Qed.

Lemma C4_last_column_details_witness :
  last (columns renamed_table) = Some "Details".
Proof.
  apply (C4_last_column_details doc_renamed renamed_table "2024-01-10").
  vm_compute. reflexivity.
Defined.

(** C5, as written, fails: no line of [doc_indented] begins with the
    header marker, since its first line begins with two spaces, and yet the
    parser returns a table.  The text is trimmed before it is cut into
    lines, which brings the marker to the head of the first line. *)
Lemma C5_counterexample :
  Forall (fun line => Py.startswith header_marker line = false)
         (Py.split newline doc_indented) /\
  parse_markdown_table doc_indented
  = inr (mkDataFrame
           ["Standing"; "Details"]
           [["1";
             "https://github.com/ValveSoftware/counter-strike_regional_standings/blob/main/a"]],
         "Unknown").
Proof.
  split.
  - vm_compute. repeat constructor.
  - vm_compute. reflexivity.
Qed.

(** C5, amended. If no line of the trimmed text begins with the header
    marker, the parser fails with the missing-header error; the result
    carries no columns, rows or timestamp. *)
Theorem C5_missing_header (markdown_text : string) :
  Forall (fun line => Py.startswith header_marker line = false)
         (lines_of markdown_text) ->
  parse_markdown_table markdown_text = inl missing_header.
Proof.
  intros H. apply parse_markdown_table_inl, parse_table_missing.
  now apply find_index_none.
Qed.

Lemma C5_missing_header_witness :
  parse_markdown_table "Standings as of 2024-01-10" = inl missing_header.
Proof.
  apply (C5_missing_header "Standings as of 2024-01-10").
  vm_compute. repeat constructor.
Defined.

(** C6. If the text has a header line and none of the lines after the
    separator is kept by the loop, the parser fails with the no-data-rows
    error; it does not return an empty table. *)
Theorem C6_no_data_rows (markdown_text : string) (hi : nat) :
  let lines := lines_of markdown_text in
  Py.find_index (Py.startswith header_marker) lines = Some hi ->
  Forall (fun line =>
            kept (headers_of (nth hi lines EmptyString)) line = false)
         (candidates lines hi) ->
  parse_markdown_table markdown_text = inl no_data_rows.
Proof.
  intros lines Hf Hall. apply parse_markdown_table_inl. fold lines.
  rewrite (parse_table_found _ _ Hf). cbv zeta.
  assert (He : forall data,
             extract_rows (headers_of (nth hi lines EmptyString))
               (candidates lines hi) data = inr data).
  { induction Hall as [|line rest Hk _ IH]; intros data; [reflexivity|].
    rewrite extract_rows_skip by assumption. apply IH. }
  now rewrite He.
Qed.

Lemma C6_no_data_rows_witness :
  parse_markdown_table doc_no_rows = inl no_data_rows.
Proof.
  apply (C6_no_data_rows doc_no_rows 1).
  - vm_compute. reflexivity.
  - vm_compute. repeat constructor.
Defined.

(** C9. If a line after the separator is kept by the loop and its last
    cell has no opening parenthesis, the parser fails as a whole with the
    error of the substring search, whatever the other lines hold: the loop
    stops at that line, before the row is appended, and the rows collected
    so far are lost. *)
Theorem C9_no_parenthesis (markdown_text : string) (hi : nat)
        (line raw : string) :
  let lines := lines_of markdown_text in
  let headers := headers_of (nth hi lines EmptyString) in
  Py.find_index (Py.startswith header_marker) lines = Some hi ->
  In line (candidates lines hi) ->
  kept headers line = true ->
  last (cells line) = Some raw ->
  Py.contains lparen raw = false ->
  parse_markdown_table markdown_text = inl substring_not_found /\
  forall rest data,
    extract_rows headers (line :: rest) data = inl substring_not_found.
Proof.
  intros lines headers Hf Hin Hk Hl Hc.
  assert (Hstep : forall rest data,
             extract_rows headers (line :: rest) data
             = inl substring_not_found).
  { intros rest data.
    destruct (extract_rows_keep headers line rest data Hk) as (raw' & Hl' & ->).
    assert (raw' = raw) as -> by congruence.
    apply index_none in Hc. now rewrite Hc. }
  split; [|exact Hstep].
  apply parse_markdown_table_inl. fold lines.
  rewrite (parse_table_found _ _ Hf). cbv zeta. fold headers.
  assert (He : forall data,
             extract_rows headers (candidates lines hi) data
             = inl substring_not_found).
  { clear Hf. induction (candidates lines hi) as [|l rest IH];
      intros data; [contradiction|].
    destruct Hin as [->|Hin]; [apply Hstep|].
    destruct (kept headers l) eqn:Hkl.
    - destruct (extract_rows_keep headers l rest data Hkl) as (r & _ & ->).
      destruct (Py.index lparen r); [now apply IH|reflexivity].
    - rewrite extract_rows_skip by assumption. now apply IH. }
  now rewrite He.
Qed.

Lemma C9_no_parenthesis_witness :
  parse_markdown_table doc_no_paren = inl substring_not_found /\
  forall rest data,
    extract_rows (headers_of "| Standing | Details |")
      ("| 2 | plain |" :: rest) data
    = inl substring_not_found.
Proof.
  apply (C9_no_parenthesis doc_no_paren 1 "| 2 | plain |" "plain").
  - vm_compute. reflexivity.
  - vm_compute. right. left. reflexivity.
  - vm_compute. reflexivity.
  - vm_compute. reflexivity.
  - vm_compute. reflexivity.
Defined.

(** ** The link rule *)

Section LinkFacts.

Local Open Scope nat_scope.

Lemma index_get (c : ascii) (s : string) (i : nat) :
  Py.index c s = Some i -> String.get i s = Some c /\ i < String.length s.
Proof.
  revert i. induction s as [|a r IH]; intros i; simpl; [discriminate|].
  destruct (Ascii.eqb_spec a c) as [->|Hne].
  - intros [= <-]. split; [reflexivity|lia].
  - destruct (Py.index c r) as [j|]; [|discriminate].
    intros [= <-]. destruct (IH j eq_refl). split; [assumption|lia].
Qed.

Lemma last_char_get (c : ascii) (s : string) :
  last_char s = Some c ->
  String.get (String.length s - 1) s = Some c /\
  last_index c s = Some (String.length s - 1).
Proof.
  induction s as [|a r IH]; [discriminate|].
  destruct r as [|b r'].
  - intros [= ->]. simpl. now rewrite Ascii.eqb_refl.
  - intros H. change (last_char (String b r') = Some c) in H.
    destruct (IH H) as [Hg Hl].
    change (String.length (String a (String b r')) - 1)
      with (S (String.length r')).
    change (String.length (String b r') - 1)
      with (String.length r' - 0) in Hg, Hl.
    rewrite Nat.sub_0_r in Hg, Hl.
    split; [exact Hg|].
    change (last_index c (String a (String b r')))
      with (match last_index c (String b r') with
            | Some j => Some (S j)
            | None => if Ascii.eqb a c then Some 0 else None
            end).
    now rewrite Hl.
Qed.

(** The slice of the program, as a substring. *)
Lemma link_slice (raw : string) (i : nat) :
  i < String.length raw ->
  Py.str_slice raw (Z.of_nat i + 1) (-1)
  = String.substring (S i) (String.length raw - 1 - S i) raw.
Proof.
  intros Hi. unfold Py.str_slice.
  replace (Z.of_nat i + 1)%Z with (Z.of_nat (S i)) by lia.
  rewrite bound_of_nat, bound_minus_one.
  now rewrite Nat.min_l by lia.
Qed.

(** On a cell that ends with a closing parenthesis the program and the
    rule of the specification agree. *)
Lemma link_agrees (raw : string) (i : nat) :
  Py.index lparen raw = Some i ->
  last_char raw = Some rparen ->
  spec_between_parens raw
  = Some (String.substring (S i) (String.length raw - 1 - S i) raw).
Proof.
  intros Hi Hl. unfold spec_between_parens. rewrite Hi.
  destruct (index_get _ _ _ Hi) as [Hg Hlt].
  destruct (last_char_get _ _ Hl) as [Hg' ->].
  assert (i <> String.length raw - 1).
  { intros ->. rewrite Hg in Hg'. discriminate. }
  destruct (Nat.ltb_spec i (String.length raw - 1)); [reflexivity|lia].
Qed.

End LinkFacts.

(** C2, as written, fails: the only row of [doc_trailing] comes from the
    cell [View(a)b]; the text between its first opening and its last
    closing parenthesis is [a], and the program puts [a)] after the
    prefix. *)
Lemma C2_counterexample :
  parse_markdown_table doc_trailing
  = inr (mkDataFrame
           ["Standing"; "Details"]
           [["1";
             "https://github.com/ValveSoftware/counter-strike_regional_standings/blob/main/a)"]],
         "2024-01-10") /\
  cells "| 1 | View(a)b |" = ["1"; "View(a)b"] /\
  spec_link "View(a)b"
  = Some "https://github.com/ValveSoftware/counter-strike_regional_standings/blob/main/a".
Proof. repeat split; vm_compute; reflexivity. Qed.

(** C2, amended. For every row of a table the parser returns, the last
    cell is the fixed prefix followed by the text of the original last cell
    from just after its first opening parenthesis up to, and without, its
    final character, whatever that character is.  When the original cell
    ends with a closing parenthesis this is the text strictly between the
    first opening and the last closing parenthesis.  The cell
    [View(standings/detail1.md)] gives the prefix followed by
    [standings/detail1.md]. *)
Theorem C2_link_reconstruction (markdown_text : string) (df : DataFrame)
        (timestamp : string) :
  parse_markdown_table markdown_text = inr (df, timestamp) ->
  (exists hi,
      Py.find_index (Py.startswith header_marker) (lines_of markdown_text)
      = Some hi /\
      Forall2
        (fun line row =>
           exists raw i,
             last (cells line) = Some raw /\
             Py.index lparen raw = Some i /\
             last row
             = Some (blob_prefix
                     +:+ String.substring
                           (S i) (String.length raw - 1 - S i) raw) /\
             (last_char raw = Some rparen -> last row = spec_link raw))
        (List.filter (kept (columns df))
                     (candidates (lines_of markdown_text) hi))
        (rows df)) /\
  link_of "View(standings/detail1.md)"
  = inr "https://github.com/ValveSoftware/counter-strike_regional_standings/blob/main/standings/detail1.md".
Proof.
  intros H. split; [|vm_compute; reflexivity].
  apply parse_markdown_table_inr in H as [H _].
  apply parse_table_inr in H as (hi & Hf & _ & _ & He).
  apply extract_rows_inr in He as (new & Hnew & Hy).
  simpl in Hnew. subst new. exists hi. split; [assumption|].
  induction Hy as [|line row ls rs (raw & i & Hl & Hi & ->) _ IH];
    constructor; [|assumption].
  exists raw, i. destruct (index_get _ _ _ Hi) as [_ Hlt].
  rewrite last_snoc, link_slice by assumption.
  repeat split; try assumption.
  intros Hr. unfold spec_link. now rewrite (link_agrees _ _ Hi Hr).
Qed.

Lemma C2_link_reconstruction_witness :
  (exists hi,
      Py.find_index (Py.startswith header_marker) (lines_of doc_scenario)
      = Some hi /\
      Forall2
        (fun line row =>
           exists raw i,
             last (cells line) = Some raw /\
             Py.index lparen raw = Some i /\
             last row
             = Some (blob_prefix
                     +:+ String.substring
                           (S i) (String.length raw - 1 - S i) raw) /\
             (last_char raw = Some rparen -> last row = spec_link raw))
        (List.filter (kept (columns scenario_table))
                     (candidates (lines_of doc_scenario) hi))
        (rows scenario_table)) /\
  link_of "View(standings/detail1.md)"
  = inr "https://github.com/ValveSoftware/counter-strike_regional_standings/blob/main/standings/detail1.md".
Proof.
  apply (C2_link_reconstruction doc_scenario scenario_table "2024-01-10").
  vm_compute. reflexivity.
Defined.

(** ** The timestamp pattern against its description *)

Section PatternFacts.

Local Arguments String.append !_ _ / : simpl nomatch.

Lemma append_assoc (a b c : string) : (a +:+ b) +:+ c = a +:+ b +:+ c.
Proof. induction a as [|x a IH]; simpl; [reflexivity|now rewrite IH]. Qed.

Lemma lit_some (l s r : string) : Re.lit l s = Some r -> s = l +:+ r.
Proof.
  revert s. induction l as [|a l IH]; intros s; simpl.
  - now intros [= ->].
  - destruct s as [|b s]; [discriminate|].
    destruct (Ascii.eqb_spec a b) as [->|]; [|discriminate].
    intros H. now rewrite (IH _ H).
Qed.

Lemma lit_app (l r : string) : Re.lit l (l +:+ r) = Some r.
Proof.
  induction l as [|a l IH]; simpl; [reflexivity|].
  now rewrite Ascii.eqb_refl.
Qed.

Lemma digits_some (n : nat) (s x r : string) :
  Re.digits n s = Some (x, r) ->
  s = x +:+ r /\ forall r', Re.digits n (x +:+ r') = Some (x, r').
Proof.
  revert s x. induction n as [|n IH]; intros s x; simpl.
  - intros [= <- <-]. now split.
  - destruct s as [|c s]; [discriminate|].
    destruct (Py.isdigit c) eqn:Hc; [|discriminate].
    destruct (Re.digits n s) as [[d rest]|] eqn:Hd; [|discriminate].
    intros [= <- <-]. destruct (IH _ _ Hd) as [-> Hr].
    split; [reflexivity|]. intros r'. simpl. now rewrite Hc, Hr.
Qed.

(** The group reads a date at the head of the text, and reads the same
    date whatever follows it. *)
Lemma date_some (s d : string) :
  Re.date s = Some d ->
  exists post, s = d +:+ post /\ forall r, Re.date (d +:+ r) = Some d.
Proof.
  unfold Re.date.
  destruct (Re.digits 4 s) as [[y r1]|] eqn:H1; [|discriminate].
  destruct (Re.lit "-" r1) as [r2|] eqn:H2; [|discriminate].
  destruct (Re.digits 2 r2) as [[m r3]|] eqn:H3; [|discriminate].
  destruct (Re.lit "-" r3) as [r4|] eqn:H4; [|discriminate].
  destruct (Re.digits 2 r4) as [[dd r5]|] eqn:H5; [|discriminate].
  intros [= <-].
  apply digits_some in H1 as [-> G1]. apply lit_some in H2 as ->.
  apply digits_some in H3 as [-> G3]. apply lit_some in H4 as ->.
  apply digits_some in H5 as [-> G5].
  exists r5. split.
  - change (y +:+ "-" +:+ m +:+ "-" +:+ dd +:+ r5
            = (y +:+ "-" +:+ m +:+ "-" +:+ dd) +:+ r5).
    now rewrite !append_assoc.
  - intros r.
    change (Re.date ((y +:+ "-" +:+ m +:+ "-" +:+ dd) +:+ r)
            = Some (y +:+ "-" +:+ m +:+ "-" +:+ dd)).
    rewrite !append_assoc. unfold Re.date.
    rewrite G1, lit_app, G3, lit_app, G5. reflexivity.
Qed.

Lemma is_date_spec (d : string) :
  is_date d = true <-> Re.date d = Some d.
Proof.
  unfold is_date. destruct (Re.date d) as [d'|]; [|split; discriminate].
  destruct (String.eqb_spec d d') as [->|Hne].
  - tauto.
  - split; [discriminate|]. intros [= ->]. contradiction.
Qed.

Lemma append_nil_r (s : string) : s +:+ EmptyString = s.
Proof. induction s as [|c s IH]; simpl; [reflexivity|now rewrite IH]. Qed.

Lemma date_app (d r : string) :
  is_date d = true -> Re.date (d +:+ r) = Some d.
Proof.
  intros H. apply is_date_spec in H.
  destruct (date_some _ _ H) as (_ & _ & G). apply G.
Qed.

Lemma date_is_date (s d : string) :
  Re.date s = Some d -> is_date d = true.
Proof.
  intros H. destruct (date_some _ _ H) as (_ & _ & G).
  apply is_date_spec. specialize (G EmptyString).
  now rewrite append_nil_r in G.
Qed.

Lemma as_of_some (s d : string) :
  Re.as_of s = Some d ->
  is_date d = true /\ exists post, s = " as of " +:+ d +:+ post.
Proof.
  unfold Re.as_of.
  destruct (Re.lit " as of " s) as [r|] eqn:Hl; [|discriminate].
  intros H. split; [eapply date_is_date; eassumption|].
  apply lit_some in Hl as ->.
  destruct (date_some _ _ H) as (post & -> & _). now exists post.
Qed.

Lemma as_of_app (d post : string) :
  is_date d = true -> Re.as_of (" as of " +:+ d +:+ post) = Some d.
Proof.
  intros H. unfold Re.as_of. rewrite lit_app. now apply date_app.
Qed.

Lemma word_plus_some (k : string -> option string) (s d : string) :
  Re.word_plus k s = Some d ->
  exists w r, w <> EmptyString /\ all_word w = true /\
              s = w +:+ r /\ k r = Some d.
Proof.
  induction s as [|c s IH]; simpl; [discriminate|].
  destruct (Py.isword c) eqn:Hc; [|discriminate].
  destruct (Re.word_plus k s) as [d'|] eqn:Hw.
  - intros [= ->]. destruct (IH eq_refl) as (w & r & _ & Hw' & -> & Hk).
    exists (String c w), r. simpl. rewrite Hc.
    repeat split; [discriminate|assumption|assumption].
  - intros Hk. exists (String c EmptyString), s. simpl. rewrite Hc.
    repeat split; [discriminate|assumption].
Qed.

Lemma word_plus_cons (k : string -> option string) (c : ascii)
      (s : string) :
  Re.word_plus k (String c s)
  = if Py.isword c then
      match Re.word_plus k s with
      | Some d => Some d
      | None => k s
      end
    else None.
Proof. reflexivity. Qed.

Lemma word_plus_blank (k : string -> option string) (s : string) :
  Re.word_plus k (" as of " +:+ s) = None.
Proof. reflexivity. Qed.

(** A word followed by [ as of ] and a date: [\w+] stops at the blank. *)
Lemma word_plus_app (w d post : string) :
  w <> EmptyString -> all_word w = true -> is_date d = true ->
  Re.word_plus Re.as_of (w +:+ " as of " +:+ d +:+ post) = Some d.
Proof.
  intros Hne Hw Hd. induction w as [|c w IH]; [contradiction|].
  simpl in Hw. apply andb_true_iff in Hw as [Hc Hw].
  change (String c w +:+ " as of " +:+ d +:+ post)
    with (String c (w +:+ " as of " +:+ d +:+ post)).
  rewrite word_plus_cons, Hc. destruct w as [|c' w'].
  - change (EmptyString +:+ " as of " +:+ d +:+ post)
      with (" as of " +:+ d +:+ post).
    now rewrite word_plus_blank, as_of_app.
  - rewrite IH; [reflexivity|discriminate|assumption].
Qed.

Lemma match_here_some (s d : string) :
  Re.match_here s = Some d ->
  is_date d = true /\
  exists post,
    s = "Standings as of " +:+ d +:+ post \/
    exists w, w <> EmptyString /\ all_word w = true /\
              s = "Regional Standings for " +:+ w +:+ " as of "
                  +:+ d +:+ post.
Proof.
  unfold Re.match_here.
  assert (Second :
            match Re.lit "Regional Standings for " s with
            | Some r => Re.word_plus Re.as_of r
            | None => None
            end = Some d ->
            is_date d = true /\
            exists post,
              s = "Standings as of " +:+ d +:+ post \/
              exists w, w <> EmptyString /\ all_word w = true /\
                        s = "Regional Standings for " +:+ w +:+ " as of "
                            +:+ d +:+ post).
  { destruct (Re.lit "Regional Standings for " s) as [r|] eqn:Hl;
      [|discriminate].
    intros H. apply lit_some in Hl as ->.
    apply word_plus_some in H as (w & r' & Hne & Hw & -> & Hk).
    apply as_of_some in Hk as (Hd & post & ->).
    split; [assumption|]. exists post. right. now exists w. }
  destruct (Re.lit "Standings" s) as [r|] eqn:Hl; [|exact Second].
  destruct (Re.as_of r) as [d'|] eqn:Ha; [|exact Second].
  intros [= ->]. apply lit_some in Hl as ->.
  apply as_of_some in Ha as (Hd & post & ->).
  split; [assumption|]. exists post. now left.
Qed.

Lemma match_here_first (d post : string) :
  is_date d = true ->
  Re.match_here ("Standings as of " +:+ d +:+ post) = Some d.
Proof.
  intros H. unfold Re.match_here.
  change ("Standings as of " +:+ d +:+ post)
    with ("Standings" +:+ " as of " +:+ d +:+ post).
  rewrite lit_app, as_of_app by assumption. reflexivity.
Qed.

Lemma match_here_second (w d post : string) :
  w <> EmptyString -> all_word w = true -> is_date d = true ->
  Re.match_here
    ("Regional Standings for " +:+ w +:+ " as of " +:+ d +:+ post)
  = Some d.
Proof.
  intros Hne Hw Hd. unfold Re.match_here.
  rewrite lit_app, word_plus_app by assumption.
  reflexivity.
Qed.

Lemma search_here (s d : string) :
  Re.match_here s = Some d -> Re.search s = Some d.
Proof.
  intros H. destruct s as [|c s]; [vm_compute in H; discriminate|].
  change (Re.search (String c s))
    with (match Re.match_here (String c s) with
          | Some d => Some d
          | None => Re.search s
          end).
  now rewrite H.
Qed.

(** Whatever [re.search] captures is the date of a match on the line. *)
Lemma search_sound (s d : string) :
  Re.search s = Some d -> spec_match s d.
Proof.
  induction s as [|c s IH].
  - intros H. vm_compute in H. discriminate.
  - change (Re.search (String c s))
      with (match Re.match_here (String c s) with
            | Some d => Some d
            | None => Re.search s
            end).
    destruct (Re.match_here (String c s)) as [d'|] eqn:Hm.
    + intros [= ->]. apply match_here_some in Hm as (Hd & post & Hs).
      exists EmptyString, post. split; [assumption|exact Hs].
    + intros H. destruct (IH H) as (pre & post & Hd & Hs).
      exists (String c pre), post. split; [assumption|].
      destruct Hs as [->|(w & Hne & Hw & ->)]; [now left|].
      right. now exists w.
Qed.

(** Where the line has a match, [re.search] finds one. *)
Lemma search_complete (s d : string) :
  spec_match s d -> exists d', Re.search s = Some d'.
Proof.
  intros (pre & post & Hd & Hs).
  assert (Hm : exists tail, s = pre +:+ tail /\ Re.match_here tail = Some d).
  { destruct Hs as [->|(w & Hne & Hw & ->)].
    - eexists. split; [reflexivity|]. now apply match_here_first.
    - eexists. split; [reflexivity|]. now apply match_here_second. }
  destruct Hm as (tail & -> & Hm). clear Hs.
  induction pre as [|c pre IH].
  - exists d. now apply search_here.
  - change (Re.search (String c pre +:+ tail))
      with (match Re.match_here (String c (pre +:+ tail)) with
            | Some d => Some d
            | None => Re.search (pre +:+ tail)
            end).
    destruct (Re.match_here (String c (pre +:+ tail))) as [d'|].
    + now exists d'.
    + exact IH.
Qed.

End PatternFacts.

(** ** Properties of the timestamp *)

(** C7, as written, fails: the first line of [doc_blank_first] is empty
    and matches neither form of the pattern, and yet the timestamp is not
    [Unknown]: the text is trimmed before it is cut into lines, so the line
    that is searched is the second one of the document. *)
Lemma C7_counterexample :
  nth 0 (Py.split newline doc_blank_first) EmptyString = EmptyString /\
  (forall d, ~ spec_match EmptyString d) /\
  parse_markdown_table doc_blank_first = inr (small_table, "2024-03-15").
Proof.
  split; [vm_compute; reflexivity|]. split; [|vm_compute; reflexivity].
  intros d H. apply search_complete in H as [d' H].
  vm_compute in H. discriminate.
Qed.

(** C7, amended. The timestamp is read from the first line of the trimmed
    text alone and reading it never fails: whenever the header and the rows
    are valid the parser succeeds, with the timestamp of that line.  If the
    line has a match of [Standings as of YYYY-MM-DD] or of [Regional
    Standings for <word> as of YYYY-MM-DD], the timestamp is the date of
    such a match, and it is the date written when the line begins with the
    phrase; if the line has no match, the timestamp is [Unknown]. *)
Theorem C7_timestamp (markdown_text : string) (df : DataFrame) :
  let first := nth 0 (lines_of markdown_text) EmptyString in
  parse_table (lines_of markdown_text) = inr df ->
  parse_markdown_table markdown_text = inr (df, timestamp_of first) /\
  ((exists d, spec_match first d) -> spec_match first (timestamp_of first)) /\
  ((forall d, ~ spec_match first d) -> timestamp_of first = "Unknown") /\
  (forall d post,
      is_date d = true ->
      timestamp_of ("Standings as of " +:+ d +:+ post) = d) /\
  (forall w d post,
      w <> EmptyString -> all_word w = true -> is_date d = true ->
      timestamp_of
        ("Regional Standings for " +:+ w +:+ " as of " +:+ d +:+ post) = d) /\
  timestamp_of "Standings as of 2024-03-15" = "2024-03-15" /\
  timestamp_of "Regional Standings for Europe as of 2024-03-15"
  = "2024-03-15".
Proof.
  intros first H. split; [now apply parse_markdown_table_inr|].
  unfold timestamp_of. repeat split.
  - intros [d Hd]. destruct (search_complete _ _ Hd) as [d' Hs].
    rewrite Hs. now apply search_sound.
  - intros Hno. destruct (Re.search first) as [d|] eqn:Hs; [|reflexivity].
    apply search_sound in Hs. now apply Hno in Hs.
  - intros d post Hd.
    now rewrite (search_here _ d (match_here_first d post Hd)).
  - intros w d post Hne Hw Hd.
    now rewrite (search_here _ d (match_here_second w d post Hne Hw Hd)).
Qed.

Lemma C7_timestamp_witness :
  let first := nth 0 (lines_of doc_indented) EmptyString in
  parse_markdown_table doc_indented = inr (small_table, timestamp_of first) /\
  ((exists d, spec_match first d) -> spec_match first (timestamp_of first)) /\
  ((forall d, ~ spec_match first d) -> timestamp_of first = "Unknown") /\
  (forall d post,
      is_date d = true ->
      timestamp_of ("Standings as of " +:+ d +:+ post) = d) /\
  (forall w d post,
      w <> EmptyString -> all_word w = true -> is_date d = true ->
      timestamp_of
        ("Regional Standings for " +:+ w +:+ " as of " +:+ d +:+ post) = d) /\
  timestamp_of "Standings as of 2024-03-15" = "2024-03-15" /\
  timestamp_of "Regional Standings for Europe as of 2024-03-15"
  = "2024-03-15".
Proof.
  apply (C7_timestamp doc_indented small_table).
  vm_compute. reflexivity.
Defined.

(** ** Properties of the fetcher and the presenter *)

Section FetcherFacts.

Variable remote : string -> Z -> Response.

(** A call that finds a valid entry: the stored text, nothing else. *)
Lemma fetch_hit (now : Z) (url : string) (w : world) (v : string) (t : Z) :
  cache w !! url = Some (v, t) -> now - t < ttl ->
  fetch_leaderboard_data remote now url w = (Some v, w).
Proof.
  intros Hc Ht. unfold fetch_leaderboard_data, cache_data. rewrite Hc.
  destruct (Z.ltb_spec (now - t) ttl); [reflexivity|lia].
Qed.

(** A call that finds no valid entry: one request, and on status 200 the
    entry of the location becomes the new text with the instant of the
    call. *)
Lemma fetch_miss (now : Z) (url : string) (w : world) :
  (forall v t, cache w !! url = Some (v, t) -> ttl <= now - t) ->
  fetch_leaderboard_data remote now url w
  = if status_code (remote url now) =? 200 then
      (Some (text (remote url now)),
       mkWorld (<[url := (text (remote url now), now)]> (cache w))
               (requests w ++ [url]) (page w))
    else
      (None,
       mkWorld (cache w) (requests w ++ [url])
               (page w ++ [st_error ("Failed to fetch data from "
                                     +:+ url)])).
Proof.
  intros Hc.
  assert (Hbody :
            (let (r, w') := fetch_body remote now url w in
             match r with
             | Some v =>
                 (Some v,
                  mkWorld (<[url := (v, now)]> (cache w')) (requests w')
                          (page w'))
             | None => (None, w')
             end)
            = if status_code (remote url now) =? 200 then
                (Some (text (remote url now)),
                 mkWorld (<[url := (text (remote url now), now)]> (cache w))
                         (requests w ++ [url]) (page w))
              else
                (None,
                 mkWorld (cache w) (requests w ++ [url])
                         (page w ++ [st_error ("Failed to fetch data from "
                                               +:+ url)]))).
  { unfold fetch_body, bind, requests_get, show, ret. simpl.
    destruct (status_code (remote url now) =? 200); reflexivity. }
  unfold fetch_leaderboard_data, cache_data.
  destruct (cache w !! url) as [[v t]|] eqn:He; [|exact Hbody].
  specialize (Hc v t eq_refl).
  destruct (Z.ltb_spec (now - t) ttl); [lia|exact Hbody].
Qed.

(** A call that issues no request returns a valid entry of the cache. *)
Lemma fetch_served (now : Z) (url : string) (w w' : world) (v : string) :
  fetch_leaderboard_data remote now url w = (Some v, w') ->
  requests w' = requests w ->
  exists t, cache w !! url = Some (v, t) /\ now - t < ttl.
Proof.
  intros H Hr.
  destruct (cache w !! url) as [[v0 t]|] eqn:He.
  - destruct (Z.ltb_spec (now - t) ttl) as [Hlt|Hge].
    + rewrite (fetch_hit _ _ _ _ _ He Hlt) in H.
      injection H as <- <-. now exists t.
    + rewrite fetch_miss in H
        by (intros v1 t1 E; rewrite He in E; injection E as <- <-; lia).
      exfalso.
      destruct (status_code (remote url now) =? 200);
        injection H as _ <-; simpl in Hr;
        apply (f_equal (@length string)) in Hr;
        rewrite length_app in Hr; simpl in Hr; lia.
  - rewrite fetch_miss in H by (intros v1 t1 E; rewrite He in E; discriminate).
    exfalso.
    destruct (status_code (remote url now) =? 200);
      injection H as _ <-; simpl in Hr;
      apply (f_equal (@length string)) in Hr;
      rewrite length_app in Hr; simpl in Hr; lia.
Qed.

(** Any number of calls while the entry is valid: the stored text each
    time, and the state stays as it is. *)
Lemma fetch_each_hit (instants : list Z) (url : string) (w : world)
      (v : string) (t : Z) :
  cache w !! url = Some (v, t) ->
  Forall (fun now => now - t < ttl) instants ->
  fetch_each remote instants url w = (map (fun _ => Some v) instants, w).
Proof.
  intros Hc Hall. induction Hall as [|now rest Hnow _ IH]; [reflexivity|].
  simpl. rewrite (fetch_hit _ _ _ _ _ Hc Hnow), IH. reflexivity.
Qed.

End FetcherFacts.

(** C8. With the cache of Section 4.1 and the window of the program,
    24 * 60 * 60 seconds: starting without an entry for the location, a
    first call that is answered with status 200 issues one request; a
    second call less than the window after it returns the same text and
    changes nothing, so the two calls issue exactly one request, and so do
    any number of calls made less than the window after the first; a third
    call more than the window after the first issues a second request and,
    when answered with status 200, puts the new text with its instant in
    place of the entry.  A call that issues no request returns an entry
    whose age is below the window. *)
Theorem C8_cache_reuse (remote : string -> Z -> Response) (url body : string)
        (w : world) (t1 t2 t3 : Z) :
  cache w !! url = None ->
  remote url t1 = mkResponse 200 body ->
  t2 - t1 < ttl ->
  ttl < t3 - t1 ->
  let '(r1, w1) := fetch_leaderboard_data remote t1 url w in
  let '(r2, w2) := fetch_leaderboard_data remote t2 url w1 in
  let '(r3, w3) := fetch_leaderboard_data remote t3 url w2 in
  ttl = 86400 /\
  r1 = Some body /\ requests w1 = requests w ++ [url] /\
  r2 = Some body /\ w2 = w1 /\
  (forall instants,
      Forall (fun now => now - t1 < ttl) instants ->
      fetch_each remote instants url w1
      = (map (fun _ => Some body) instants, w1)) /\
  requests w3 = requests w ++ [url; url] /\
  (status_code (remote url t3) = 200 ->
   r3 = Some (text (remote url t3)) /\
   cache w3 !! url = Some (text (remote url t3), t3)) /\
  (forall now u w0 w0' v,
      fetch_leaderboard_data remote now u w0 = (Some v, w0') ->
      requests w0' = requests w0 ->
      exists t, cache w0 !! u = Some (v, t) /\ now - t < ttl).
Proof.
  intros Hnone Hok Hin Hout.
  rewrite fetch_miss by (intros v t E; rewrite Hnone in E; discriminate).
  rewrite Hok. simpl status_code. simpl text.
  change (200 =? 200) with true. cbv iota.
  set (w1 := mkWorld (<[url := (body, t1)]> (cache w))
                     (requests w ++ [url]) (page w)).
  assert (Hc1 : cache w1 !! url = Some (body, t1))
    by (unfold w1; simpl; apply lookup_insert_eq).
  rewrite (fetch_hit remote t2 url w1 body t1 Hc1 Hin).
  rewrite fetch_miss
    by (intros v t E; rewrite Hc1 in E; injection E as <- <-; lia).
  destruct (Z.eqb_spec (status_code (remote url t3)) 200) as [E|E].
  - repeat split; try reflexivity.
    + intros instants. now apply fetch_each_hit.
    + unfold w1. simpl. now rewrite <- app_assoc.
    + simpl. apply lookup_insert_eq.
    + intros now u w0 w0' v. apply fetch_served.
  - repeat split; try reflexivity; try contradiction.
    + intros instants. now apply fetch_each_hit.
    + unfold w1. simpl. now rewrite <- app_assoc.
    + intros now u w0 w0' v. apply fetch_served.
Qed.

Lemma C8_cache_reuse_witness :
  let '(r1, w1) := fetch_leaderboard_data remote_scenario 0 url_global world0 in
  let '(r2, w2) := fetch_leaderboard_data remote_scenario 3600 url_global w1 in
  let '(r3, w3) := fetch_leaderboard_data remote_scenario 90000 url_global w2 in
  ttl = 86400 /\
  r1 = Some doc_scenario /\ requests w1 = requests world0 ++ [url_global] /\
  r2 = Some doc_scenario /\ w2 = w1 /\
  (forall instants,
      Forall (fun now => now - 0 < ttl) instants ->
      fetch_each remote_scenario instants url_global w1
      = (map (fun _ => Some doc_scenario) instants, w1)) /\
  requests w3 = requests world0 ++ [url_global; url_global] /\
  (status_code (remote_scenario url_global 90000) = 200 ->
   r3 = Some (text (remote_scenario url_global 90000)) /\
   cache w3 !! url_global
   = Some (text (remote_scenario url_global 90000), 90000)) /\
  (forall now u w0 w0' v,
      fetch_leaderboard_data remote_scenario now u w0 = (Some v, w0') ->
      requests w0' = requests w0 ->
      exists t, cache w0 !! u = Some (v, t) /\ now - t < ttl).
Proof.
  apply (C8_cache_reuse remote_scenario url_global doc_scenario world0
                        0 3600 90000).
  - reflexivity.
  - reflexivity.
  - reflexivity.
  - reflexivity.
Defined.

(** C10. When the fetch for a region is made and answered with status 200
    and an empty body, the fetcher returns the empty text and the presenter
    puts nothing on the page: the empty text counts as false, as an absent
    text does, so the parser is not run (on the empty text it would fail
    with the missing-header error and the error branch would be shown), and
    neither a table nor an error nor the raw excerpts appear. *)
Theorem C10_empty_body (remote : string -> Z -> Response)
        (pacific : Z -> string) (now : Z) (name url : string) (w : world) :
  url_of LEADERBOARD_URLS name = Some url ->
  (forall v t, cache w !! url = Some (v, t) -> ttl <= now - t) ->
  remote url now = mkResponse 200 EmptyString ->
  exists action,
    display_leaderboard remote pacific now name = Some action /\
    fst (fetch_leaderboard_data remote now url w) = Some EmptyString /\
    requests (snd (action w)) = requests w ++ [url] /\
    page (snd (action w)) = page w /\
    render pacific now (Some EmptyString) = render pacific now None /\
    (forall w', render pacific now None w' = (tt, w')) /\
    parse_markdown_table EmptyString = inl missing_header.
Proof.
  intros Hu Hc Hr. unfold display_leaderboard. rewrite Hu.
  eexists. split; [reflexivity|].
  unfold bind. rewrite (fetch_miss remote now url w Hc), Hr.
  simpl. repeat split.
Qed.

Lemma C10_empty_body_witness :
  exists action,
    display_leaderboard remote_empty pacific_fixed 0 "Global" = Some action /\
    fst (fetch_leaderboard_data remote_empty 0 url_global world0)
    = Some EmptyString /\
    requests (snd (action world0)) = requests world0 ++ [url_global] /\
    page (snd (action world0)) = page world0 /\
    render pacific_fixed 0 (Some EmptyString) = render pacific_fixed 0 None /\
    (forall w', render pacific_fixed 0 None w' = (tt, w')) /\
    parse_markdown_table EmptyString = inl missing_header.
Proof.
  apply (C10_empty_body remote_empty pacific_fixed 0 "Global" url_global
                        world0).
  - reflexivity.
  - intros v t H. discriminate H.
  - reflexivity.
Defined.

(** ** More on the primitives *)

Section StripFacts.

Local Open Scope nat_scope.

Lemma lstrip_head (s : string) :
  Py.lstrip s = EmptyString \/
  exists c r, Py.lstrip s = String c r /\ Py.isspace c = false.
Proof.
  induction s as [|c r IH]; simpl; [now left|].
  destruct (Py.isspace c) eqn:Hc; [exact IH|].
  right. now exists c, r.
Qed.

Lemma rstrip_cons (c : ascii) (r : string) :
  Py.rstrip (String c r)
  = match Py.rstrip r with
    | EmptyString => if Py.isspace c then EmptyString else String c EmptyString
    | String _ _ => String c (Py.rstrip r)
    end.
Proof. simpl. destruct (Py.rstrip r); reflexivity. Qed.

Lemma rstrip_head (c : ascii) (r : string) :
  Py.isspace c = false -> exists r', Py.rstrip (String c r) = String c r'.
Proof.
  intros Hc. rewrite rstrip_cons, Hc.
  destruct (Py.rstrip r); eauto.
Qed.

Lemma rstrip_idempotent (s : string) : Py.rstrip (Py.rstrip s) = Py.rstrip s.
Proof.
  induction s as [|c r IH]; [reflexivity|].
  rewrite rstrip_cons. destruct (Py.rstrip r) as [|a r'] eqn:Hr.
  - destruct (Py.isspace c) eqn:Hc; [reflexivity|].
    rewrite rstrip_cons. simpl. now rewrite Hc.
  - rewrite rstrip_cons, IH. reflexivity.
Qed.

(** Trimming a trimmed text changes nothing. *)
Lemma strip_idempotent (s : string) : Py.strip (Py.strip s) = Py.strip s.
Proof.
  unfold Py.strip.
  destruct (lstrip_head s) as [->|(c & r & -> & Hc)]; [reflexivity|].
  destruct (rstrip_head c r Hc) as [r' Hr].
  rewrite Hr at 1. simpl Py.lstrip. rewrite Hc, <- Hr.
  apply rstrip_idempotent.
Qed.

Lemma lstrip_space (s : string) :
  all_space s = true -> Py.lstrip s = EmptyString.
Proof.
  induction s as [|c r IH]; simpl; [reflexivity|].
  intros H. apply andb_true_iff in H as [-> H]. now apply IH.
Qed.

Lemma rstrip_space (s : string) :
  all_space s = true -> Py.rstrip s = EmptyString.
Proof.
  induction s as [|c r IH]; [reflexivity|].
  simpl all_space. intros H. apply andb_true_iff in H as [Hc H].
  rewrite rstrip_cons, (IH H), Hc. reflexivity.
Qed.

Lemma lstrip_app_space (pre s : string) :
  all_space pre = true -> Py.lstrip (pre +:+ s) = Py.lstrip s.
Proof.
  induction pre as [|c r IH]; [reflexivity|].
  simpl all_space. intros H. apply andb_true_iff in H as [Hc H].
  change (String c r +:+ s) with (String c (r +:+ s)).
  simpl Py.lstrip. rewrite Hc. now apply IH.
Qed.

Lemma rstrip_app_space (s post : string) :
  all_space post = true -> Py.rstrip (s +:+ post) = Py.rstrip s.
Proof.
  intros H. induction s as [|c r IH].
  - change (EmptyString +:+ post) with post. now apply rstrip_space.
  - change (String c r +:+ post) with (String c (r +:+ post)).
    now rewrite !rstrip_cons, IH.
Qed.

Lemma strip_app_space (pre s post : string) :
  all_space pre = true -> all_space post = true ->
  Py.strip (pre +:+ s +:+ post) = Py.strip s.
Proof.
  intros Hpre Hpost. unfold Py.strip.
  rewrite lstrip_app_space by assumption.
  induction s as [|c r IH].
  - change (EmptyString +:+ post) with post.
    now rewrite lstrip_space.
  - change (String c r +:+ post) with (String c (r +:+ post)).
    simpl Py.lstrip. destruct (Py.isspace c); [exact IH|].
    change (String c (r +:+ post)) with (String c r +:+ post).
    now apply rstrip_app_space.
Qed.

Lemma contains_lstrip (c : ascii) (s : string) :
  Py.contains c s = false -> Py.contains c (Py.lstrip s) = false.
Proof.
  induction s as [|a r IH]; simpl; [auto|].
  intros H. apply orb_false_iff in H as [Ha Hr].
  destruct (Py.isspace a); [now apply IH|].
  simpl. now rewrite Ha, Hr.
Qed.

Lemma contains_rstrip (c : ascii) (s : string) :
  Py.contains c s = false -> Py.contains c (Py.rstrip s) = false.
Proof.
  induction s as [|a r IH]; [auto|].
  intros H. simpl in H. apply orb_false_iff in H as [Ha Hr].
  rewrite rstrip_cons. specialize (IH Hr).
  destruct (Py.rstrip r) as [|b r'].
  - destruct (Py.isspace a); [reflexivity|]. simpl. now rewrite Ha.
  - simpl. simpl in IH. now rewrite Ha, IH.
Qed.

Lemma contains_strip (c : ascii) (s : string) :
  Py.contains c s = false -> Py.contains c (Py.strip s) = false.
Proof. intros H. now apply contains_rstrip, contains_lstrip. Qed.

Lemma contains_substring (c : ascii) (s : string) (a n : nat) :
  Py.contains c s = false ->
  Py.contains c (String.substring a n s) = false.
Proof.
  revert a n. induction s as [|x r IH]; intros a n H.
  - destruct a, n; reflexivity.
  - simpl in H. apply orb_false_iff in H as [Hx Hr].
    destruct a as [|a]; simpl.
    + destruct n as [|n]; [reflexivity|]. simpl. rewrite Hx. now apply IH.
    + now apply IH.
Qed.

Lemma contains_app (c : ascii) (a b : string) :
  Py.contains c (a +:+ b) = Py.contains c a || Py.contains c b.
Proof.
  induction a as [|x a IH]; [reflexivity|].
  change (String x a +:+ b) with (String x (a +:+ b)).
  simpl. now rewrite IH, orb_assoc.
Qed.

(** No piece of a split holds the separator, and a character that the text
    does not hold is in no piece. *)
Lemma split_contains (sep c : ascii) (s : string) :
  (c = sep \/ Py.contains c s = false) ->
  Forall (fun x => Py.contains c x = false) (Py.split sep s).
Proof.
  induction s as [|a r IH]; intros H.
  - repeat constructor.
  - assert (Hr : c = sep \/ Py.contains c r = false).
    { destruct H as [->|H]; [now left|]. right. simpl in H.
      now apply orb_false_iff in H. }
    specialize (IH Hr). simpl.
    destruct (Ascii.eqb_spec a sep) as [->|Hne].
    + constructor; [reflexivity|assumption].
    + destruct (Py.split sep r) as [|h t]; [repeat constructor|].
      * simpl. rewrite orb_false_r. apply Ascii.eqb_neq.
        destruct H as [->|H]; [assumption|]. simpl in H.
        apply orb_false_iff in H as [H _]. now apply Ascii.eqb_neq.
      * inversion IH; subst. constructor; [|assumption].
        simpl. apply orb_false_iff. split; [|assumption].
        apply Ascii.eqb_neq. destruct H as [->|H]; [assumption|].
        simpl in H. apply orb_false_iff in H as [H _].
        now apply Ascii.eqb_neq.
Qed.

Lemma length_split (sep : ascii) (s : string) :
  length (Py.split sep s) = S (count_char sep s).
Proof.
  induction s as [|a r IH]; [reflexivity|]. simpl.
  destruct (Ascii.eqb a sep); simpl; [now rewrite IH|].
  destruct (Py.split sep r); [discriminate|exact IH].
Qed.

Lemma length_removelast {A} (l : list A) :
  length (removelast l) = pred (length l).
Proof.
  induction l as [|x [|y t] IH]; try reflexivity.
  change (S (length (removelast (y :: t))) = S (length t)).
  now rewrite IH.
Qed.

(** The cells of a line are one less than its pipes. *)
Lemma length_cells (line : string) :
  length (cells line) = count_char pipe line - 1.
Proof.
  rewrite cells_eq, length_map, length_removelast.
  pose proof (length_split pipe line) as H.
  destruct (Py.split pipe line) as [|x t]; simpl in *; lia.
Qed.

Lemma Forall_removelast {A} (P : A -> Prop) (l : list A) :
  Forall P l -> Forall P (removelast l).
Proof.
  induction 1 as [|x [|y t] Hx Ht IH]; simpl; constructor; assumption.
Qed.

Lemma Forall_tl {A} (P : A -> Prop) (l : list A) :
  Forall P l -> Forall P (tl l).
Proof. destruct 1; [constructor|assumption]. Qed.

(** Every cell of a line without newline is clean. *)
Lemma cells_clean (line : string) :
  Py.contains newline line = false -> Forall clean_cell (cells line).
Proof.
  intros Hn. rewrite cells_eq.
  pose proof (split_contains pipe pipe line (or_introl eq_refl)) as Hp.
  pose proof (split_contains pipe newline line (or_intror Hn)) as Hl.
  apply Forall_tl, Forall_removelast in Hp, Hl.
  induction (removelast (tl (Py.split pipe line))) as [|x t IH];
    simpl; constructor.
  - inversion Hp; inversion Hl; subst. repeat split.
    + apply strip_idempotent.
    + now apply contains_strip.
    + now apply contains_strip.
  - inversion Hp; inversion Hl; subst. now apply IH.
Qed.

End StripFacts.

(** ** More on the parser *)

Section MoreParserFacts.

Local Open Scope nat_scope.

Lemma cells_header (r : string) :
  cells (header_marker +:+ r)
  = "Standing" :: map Py.strip (removelast (Py.split pipe r)).
Proof.
  rewrite cells_eq. unfold header_marker. simpl.
  change (String.append EmptyString r) with r.
  pose proof (split_not_nil pipe r) as Hr.
  destruct (Py.split pipe r) as [|h t]; [contradiction|reflexivity].
Qed.

Lemma find_index_app {A} (p : A -> bool) (pre l : list A) (x : A) :
  Forall (fun y => p y = false) pre -> p x = true ->
  Py.find_index p (pre ++ x :: l) = Some (length pre).
Proof.
  intros Hpre Hx. induction Hpre as [|y pre Hy _ IH]; simpl.
  - now rewrite Hx.
  - now rewrite Hy, IH.
Qed.

Lemma nth_length_app {A} (pre l : list A) (x d : A) :
  nth (length pre) (pre ++ x :: l) d = x.
Proof. induction pre as [|y pre IH]; [reflexivity|exact IH]. Qed.

Lemma skipn_length_app {A} (pre l : list A) (k : nat) :
  skipn (length pre + k) (pre ++ l) = skipn k l.
Proof. induction pre as [|y pre IH]; [reflexivity|exact IH]. Qed.

Lemma lines_no_newline (markdown_text : string) :
  Forall (fun l => Py.contains newline l = false) (lines_of markdown_text).
Proof. apply split_contains. now left. Qed.

Lemma Forall_skipn {A} (P : A -> Prop) (l : list A) (k : nat) :
  Forall P l -> Forall P (skipn k l).
Proof.
  revert l. induction k as [|k IH]; intros l H; [exact H|].
  destruct H; [constructor|]. simpl. now apply IH.
Qed.

Lemma Forall_nth {A} (P : A -> Prop) (l : list A) (i : nat) (d : A) :
  Forall P l -> i < length l -> P (nth i l d).
Proof.
  intros H. revert i. induction H as [|x l Hx _ IH]; intros i Hi.
  - simpl in Hi. lia.
  - destruct i as [|i]; [exact Hx|]. simpl. apply IH. simpl in Hi. lia.
Qed.

Lemma last_in_Forall {A} (P : A -> Prop) (l : list A) (x : A) :
  Forall P l -> last l = Some x -> P x.
Proof.
  intros H Hl. apply last_Some in Hl as [l' ->].
  apply Forall_app in H as [_ H]. now inversion H.
Qed.

Lemma parse_empty_fails :
  parse_markdown_table EmptyString = inl missing_header.
Proof. reflexivity. Qed.

End MoreParserFacts.

(** X1. The parser fails in three ways only, each a [ValueError]: the
    header row is missing, no data row is left, or a kept row has no
    opening parenthesis in its last cell.  No index is ever out of range. *)
Theorem X1_parse_errors (markdown_text : string) (e : exception) :
  parse_markdown_table markdown_text = inl e ->
  e = missing_header \/ e = no_data_rows \/ e = substring_not_found.
Proof.
  intros H. apply parse_markdown_table_inl in H.
  destruct (Py.find_index (Py.startswith header_marker)
              (lines_of markdown_text)) as [hi|] eqn:Hf.
  - rewrite (parse_table_found _ _ Hf) in H. cbv zeta in H.
    destruct (extract_rows _ _ _) as [e'|[|r data]] eqn:He.
    + injection H as <-. right. right. eapply extract_rows_inl. eassumption.
    + injection H as <-. right. now left.
    + discriminate.
  - rewrite parse_table_missing in H by assumption.
    injection H as <-. now left.
Qed.

Lemma X1_parse_errors_witness :
  substring_not_found = missing_header \/
  substring_not_found = no_data_rows \/
  substring_not_found = substring_not_found.
Proof.
  apply (X1_parse_errors doc_no_paren substring_not_found).
  vm_compute. reflexivity.
Defined.

(** X2. A table returned by the parser is never empty: it has at least one
    column and at least one row, and no row is empty. *)
Theorem X2_table_not_empty (markdown_text : string) (df : DataFrame)
        (timestamp : string) :
  parse_markdown_table markdown_text = inr (df, timestamp) ->
  columns df <> [] /\ rows df <> [] /\
  Forall (fun row => row <> []) (rows df).
Proof.
  intros H. apply parse_markdown_table_inr in H as [H _].
  apply parse_table_inr in H as (hi & _ & Hc & Hne & He).
  assert (Hcols : columns df <> []).
  { rewrite Hc. unfold headers_of. intros E.
    apply (f_equal (@length string)) in E.
    rewrite length_app in E. simpl in E. lia. }
  repeat split; [assumption|assumption|].
  apply extract_rows_inr in He as (new & Hnew & Hy). simpl in Hnew. subst new.
  apply Forall2_filter_width in Hy.
  eapply Forall_impl; [exact Hy|].
  intros row Hrow E. subst row. simpl in Hrow.
  destruct (columns df); [contradiction|discriminate].
Qed.

Lemma X2_table_not_empty_witness :
  columns scenario_table <> [] /\ rows scenario_table <> [] /\
  Forall (fun row => row <> []) (rows scenario_table).
Proof.
  apply (X2_table_not_empty doc_scenario scenario_table "2024-01-10").
  vm_compute. reflexivity.
Defined.

(** X3. The column names of a returned table are either the single name
    [Details] (a header with one column loses its name [Standing] to the
    renaming) or begin with [Standing] and end with [Details]. *)
Theorem X3_column_names (markdown_text : string) (df : DataFrame)
        (timestamp : string) :
  parse_markdown_table markdown_text = inr (df, timestamp) ->
  columns df = ["Details"] \/
  exists middle, columns df = "Standing" :: middle ++ ["Details"].
Proof.
  intros H. apply parse_markdown_table_inr in H as [H _].
  apply parse_table_inr in H as (hi & Hf & -> & _).
  destruct (find_index_some _ _ _ EmptyString Hf) as (_ & Hm & _).
  apply startswith_app in Hm as [r ->].
  unfold headers_of. rewrite cells_header.
  destruct (map Py.strip (removelast (Py.split pipe r))) as [|x t].
  - now left.
  - right. exists (removelast (x :: t)). reflexivity.
Qed.

Lemma X3_column_names_witness :
  columns renamed_table = ["Details"] \/
  exists middle, columns renamed_table = "Standing" :: middle ++ ["Details"].
Proof.
  apply (X3_column_names doc_renamed renamed_table "2024-01-10").
  vm_compute. reflexivity.
Defined.

(** X4. The table depends on the first header line and on the lines from
    the second after it, and on nothing else: the lines before the header
    and the line right after it, whatever it holds, even a data row, are
    never read.  A header that is the last line gives the no-data-rows
    error. *)
Theorem X4_table_lines (before : list string) (header_line : string)
        (after_header : string) (rest : list string) :
  Forall (fun l => Py.startswith header_marker l = false) before ->
  Py.startswith header_marker header_line = true ->
  parse_table (before ++ header_line :: after_header :: rest)
  = parse_table (header_line :: EmptyString :: rest) /\
  parse_table (before ++ [header_line]) = inl no_data_rows.
Proof.
  intros Hb Hh.
  assert (Hfound : forall tail,
             parse_table (before ++ header_line :: tail)
             = let headers := headers_of header_line in
               match extract_rows headers (skipn 1 tail) [] with
               | inl e => inl e
               | inr [] => inl no_data_rows
               | inr data => inr (mkDataFrame headers data)
               end).
  { intros tail.
    rewrite (parse_table_found _ _ (find_index_app _ before tail _ Hb Hh)).
    rewrite nth_length_app, candidates_skipn.
    change (before ++ header_line :: tail)
      with (before ++ [header_line] ++ tail).
    rewrite app_assoc.
    replace (length before + 2)%nat
      with (length (before ++ [header_line]) + 1)%nat
      by (rewrite length_app; simpl; lia).
    now rewrite skipn_length_app. }
  split.
  - rewrite Hfound.
    change (header_line :: EmptyString :: rest)
      with ([] ++ header_line :: EmptyString :: rest).
    rewrite (parse_table_found _ _
               (find_index_app _ [] (EmptyString :: rest) _
                               (List.Forall_nil _) Hh)).
    reflexivity.
  - now rewrite Hfound.
Qed.

Lemma X4_table_lines_witness :
  parse_table lines_shifted
  = parse_table ["| Standing | Details |"; ""; "| 2 | View(b) |"] /\
  parse_table ["Standings as of 2024-01-10"; ""; "| Standing | Details |"]
  = inl no_data_rows.
Proof.
  apply (X4_table_lines ["Standings as of 2024-01-10"; ""]
                        "| Standing | Details |" "| 1 | View(a) |"
                        ["| 2 | View(b) |"]).
  - repeat constructor.
  - reflexivity.
Defined.

(** X5. A line yields a row exactly when it begins with a pipe and holds
    one pipe more than there are columns; the number of its cells is the
    number of its pipes less one, so a line with a single pipe has no cell
    and is never a row. *)
Theorem X5_kept_lines (headers : list string) (line : string) :
  headers <> [] ->
  length (cells line) = (count_char pipe line - 1)%nat /\
  (kept headers line = true <->
   Py.startswith "|" line = true /\
   count_char pipe line = S (length headers)).
Proof.
  intros Hne. split; [apply length_cells|].
  unfold kept, is_candidate.
  rewrite !andb_true_iff, row_fits_spec, <- length_zero_iff_nil.
  rewrite length_cells.
  assert (Hlen : (0 < length headers)%nat)
    by (destruct headers; [contradiction|simpl; lia]).
  split.
  - intros [[Hs _] [_ Hc]]. split; [assumption|lia].
  - intros [Hs Hc]. repeat split; try assumption; try lia.
    apply startswith_app in Hs as [r ->]. reflexivity.
Qed.

Lemma X5_kept_lines_witness :
  length (cells "| 1 | View(a) |") = (count_char pipe "| 1 | View(a) |" - 1)%nat /\
  (kept ["Standing"; "Details"] "| 1 | View(a) |" = true <->
   Py.startswith "|" "| 1 | View(a) |" = true /\
   count_char pipe "| 1 | View(a) |" = S (length ["Standing"; "Details"])).
Proof.
  apply (X5_kept_lines ["Standing"; "Details"] "| 1 | View(a) |").
  discriminate.
Defined.

(** X6. In a returned table every column name and every cell but the last
    of a row is trimmed and holds neither a pipe nor a newline; the last
    cell of every row is the fixed prefix followed by a text that holds
    neither a pipe nor a newline. *)
Theorem X6_clean_table (markdown_text : string) (df : DataFrame)
        (timestamp : string) :
  parse_markdown_table markdown_text = inr (df, timestamp) ->
  Forall clean_cell (columns df) /\
  Forall (fun row =>
            exists init path,
              row = init ++ [blob_prefix +:+ path] /\
              Forall clean_cell init /\
              Py.contains pipe path = false /\
              Py.contains newline path = false)
         (rows df).
Proof.
  intros H. apply parse_markdown_table_inr in H as [H _].
  apply parse_table_inr in H as (hi & Hf & Hc & _ & He).
  pose proof (lines_no_newline markdown_text) as Hn.
  destruct (find_index_some _ _ _ EmptyString Hf) as (Hlt & _ & _).
  split.
  - rewrite Hc. unfold headers_of. apply Forall_app. split.
    + apply Forall_removelast, cells_clean.
      now apply (Forall_nth _ _ _ _ Hn).
    + repeat constructor.
  - apply extract_rows_inr in He as (new & Hnew & Hy).
    simpl in Hnew. subst new.
    assert (Hcand : Forall (fun l => Py.contains newline l = false)
                           (List.filter (kept (columns df))
                              (candidates (lines_of markdown_text) hi))).
    { rewrite candidates_skipn. apply List.Forall_forall.
      intros l Hl. apply List.filter_In in Hl as [Hl _].
      revert l Hl. apply List.Forall_forall. now apply Forall_skipn. }
    induction Hy as [|line row ls rs (raw & i & Hl & Hi & ->) _ IH];
      [constructor|].
    inversion Hcand; subst. constructor; [|now apply IH].
    pose proof (cells_clean _ H1) as Hclean.
    destruct (last_in_Forall _ _ _ Hclean Hl) as (_ & Hp & Hnl).
    eexists _, _. split; [reflexivity|].
    split; [now apply Forall_removelast|].
    split; now apply contains_substring.
Qed.

Lemma X6_clean_table_witness :
  Forall clean_cell (columns scenario_table) /\
  Forall (fun row =>
            exists init path,
              row = init ++ [blob_prefix +:+ path] /\
              Forall clean_cell init /\
              Py.contains pipe path = false /\
              Py.contains newline path = false)
         (rows scenario_table).
Proof.
  apply (X6_clean_table doc_scenario scenario_table "2024-01-10").
  vm_compute. reflexivity.
Defined.

(** X7. Whitespace around the document does not count: the result is the
    same with any whitespace put before and after the text, and it is the
    result on the trimmed text. *)
Theorem X7_surrounding_whitespace (before markdown_text after : string) :
  all_space before = true -> all_space after = true ->
  parse_markdown_table (before +:+ markdown_text +:+ after)
  = parse_markdown_table markdown_text /\
  parse_markdown_table (Py.strip markdown_text)
  = parse_markdown_table markdown_text.
Proof.
  intros Hb Ha. unfold parse_markdown_table, lines_of.
  now rewrite strip_app_space, strip_idempotent.
Qed.

Lemma X7_surrounding_whitespace_witness :
  parse_markdown_table ((nl +:+ "  ") +:+ doc_scenario +:+ (" " +:+ nl))
  = parse_markdown_table doc_scenario /\
  parse_markdown_table (Py.strip doc_scenario)
  = parse_markdown_table doc_scenario.
Proof.
  apply (X7_surrounding_whitespace (nl +:+ "  ") doc_scenario (" " +:+ nl));
    reflexivity.
Defined.

Section DateShape.

Local Open Scope nat_scope.

Lemma digits_shape (n : nat) (s x r : string) :
  Re.digits n s = Some (x, r) ->
  String.length x = n /\ all_digit x = true.
Proof.
  revert s x. induction n as [|n IH]; intros s x; simpl.
  - intros [= <- <-]. now split.
  - destruct s as [|c s]; [discriminate|].
    destruct (Py.isdigit c) eqn:Hc; [|discriminate].
    destruct (Re.digits n s) as [[d rest]|] eqn:Hd; [|discriminate].
    intros [= <- <-]. destruct (IH _ _ Hd) as [Hl Ha].
    simpl. now rewrite Hc, Hl, Ha.
Qed.

Lemma date_shape (s d : string) :
  Re.date s = Some d ->
  exists year month day,
    d = year +:+ "-" +:+ month +:+ "-" +:+ day /\
    String.length year = 4 /\ String.length month = 2 /\
    String.length day = 2 /\
    all_digit year = true /\ all_digit month = true /\
    all_digit day = true.
Proof.
  unfold Re.date.
  destruct (Re.digits 4 s) as [[y r1]|] eqn:H1; [|discriminate].
  destruct (Re.lit "-" r1) as [r2|]; [|discriminate].
  destruct (Re.digits 2 r2) as [[m r3]|] eqn:H3; [|discriminate].
  destruct (Re.lit "-" r3) as [r4|]; [|discriminate].
  destruct (Re.digits 2 r4) as [[dd r5]|] eqn:H5; [|discriminate].
  intros [= <-].
  apply digits_shape in H1 as [? ?]. apply digits_shape in H3 as [? ?].
  apply digits_shape in H5 as [? ?].
  exists y, m, dd. repeat split; assumption.
Qed.

End DateShape.

(** X8. The timestamp of a parsed document is either [Unknown] or a text
    of ten characters: four decimal digits, a hyphen, two digits, a hyphen
    and two digits.  Nothing more is checked of the date. *)
Theorem X8_timestamp_shape (markdown_text : string) (df : DataFrame)
        (timestamp : string) :
  parse_markdown_table markdown_text = inr (df, timestamp) ->
  timestamp = "Unknown" \/
  exists year month day,
    timestamp = year +:+ "-" +:+ month +:+ "-" +:+ day /\
    String.length year = 4%nat /\ String.length month = 2%nat /\
    String.length day = 2%nat /\
    all_digit year = true /\ all_digit month = true /\
    all_digit day = true.
Proof.
  intros H. apply parse_markdown_table_inr in H as [_ ->].
  unfold timestamp_of.
  destruct (Re.search _) as [d|] eqn:Hs; [|now left].
  right. apply search_sound in Hs as (_ & _ & Hd & _).
  apply is_date_spec in Hd. eapply date_shape. eassumption.
Qed.

Lemma X8_timestamp_shape_witness :
  "2024-01-10" = "Unknown" \/
  exists year month day,
    "2024-01-10" = year +:+ "-" +:+ month +:+ "-" +:+ day /\
    String.length year = 4%nat /\ String.length month = 2%nat /\
    String.length day = 2%nat /\
    all_digit year = true /\ all_digit month = true /\
    all_digit day = true.
Proof.
  apply (X8_timestamp_shape doc_scenario scenario_table "2024-01-10").
  vm_compute. reflexivity.
Defined.

(** ** More on the presenter *)

Section ExcerptFacts.

Local Open Scope nat_scope.

Lemma substring_all (s : string) :
  String.substring 0 (String.length s) s = s.
Proof. induction s as [|c r IH]; simpl; [reflexivity|now rewrite IH]. Qed.

(** A text cut at a position within it: the front and the back. *)
Lemma substring_cut (s : string) (a : nat) :
  a <= String.length s ->
  s = String.substring 0 a s
      +:+ String.substring a (String.length s - a) s /\
  String.length (String.substring 0 a s) = a /\
  String.length (String.substring a (String.length s - a) s)
  = String.length s - a.
Proof.
  revert a. induction s as [|c r IH]; intros a Ha.
  - simpl in Ha. assert (a = 0) as -> by lia. now repeat split.
  - destruct a as [|a].
    + change (String.length (String c r) - 0) with (String.length (String c r)).
      rewrite substring_all. now repeat split.
    + simpl in Ha. destruct (IH a) as (E & L1 & L2); [lia|].
      change (String.length (String c r) - S a) with (String.length r - a).
      change (String.substring (S a) (String.length r - a) (String c r))
        with (String.substring a (String.length r - a) r).
      change (String.substring 0 (S a) (String c r))
        with (String c (String.substring 0 a r)).
      change (String c (String.substring 0 a r)
              +:+ String.substring a (String.length r - a) r)
        with (String c (String.substring 0 a r
                        +:+ String.substring a (String.length r - a) r)).
      rewrite <- E. simpl String.length. now rewrite L1, L2.
Qed.

Lemma substring_front_length (s : string) (n : nat) :
  String.length (String.substring 0 n s) = Nat.min n (String.length s).
Proof.
  revert n. induction s as [|c r IH]; intros n.
  - destruct n; reflexivity.
  - destruct n as [|n]; [reflexivity|]. simpl. now rewrite IH.
Qed.

Lemma substring_front_prefix (s : string) (n : nat) :
  exists back, s = String.substring 0 n s +:+ back.
Proof.
  revert n. induction s as [|c r IH]; intros n.
  - exists EmptyString. destruct n; reflexivity.
  - destruct n as [|n]; [now exists (String c r)|].
    destruct (IH n) as [back E]. exists back.
    change (String.substring 0 (S n) (String c r))
      with (String c (String.substring 0 n r)).
    change (String c (String.substring 0 n r) +:+ back)
      with (String c (String.substring 0 n r +:+ back)).
    now rewrite <- E.
Qed.

(** [s[:1000]]: the front of the text, 1000 characters at most. *)
Lemma first_excerpt (s : string) :
  (exists back, s = Py.str_slice s 0 1000 +:+ back) /\
  String.length (Py.str_slice s 0 1000) = Nat.min 1000 (String.length s).
Proof.
  unfold Py.str_slice.
  change 0%Z with (Z.of_nat 0). change 1000%Z with (Z.of_nat 1000).
  rewrite !bound_of_nat, Nat.min_0_l, Nat.sub_0_r.
  split; [apply substring_front_prefix|].
  rewrite substring_front_length. lia.
Qed.

(** [s[-1000:]]: the back of the text, 1000 characters at most. *)
Lemma last_excerpt (s : string) :
  (exists front, s = front +:+ Py.str_from s (-1000)) /\
  String.length (Py.str_from s (-1000)) = Nat.min 1000 (String.length s).
Proof.
  unfold Py.str_from.
  set (a := Py.bound (String.length s) (-1000)).
  assert (Ha : a = String.length s - 1000) by (unfold a, Py.bound; simpl; lia).
  destruct (substring_cut s a) as (E & _ & L); [lia|].
  split; [eexists; exact E|]. rewrite L. lia.
Qed.

End ExcerptFacts.

Section PresenterFacts.

Variable remote : string -> Z -> Response.
Variable pacific : Z -> string.

(** What the presenter does after the fetch: the view of the text goes on
    the page, and the cache and the requests stay as they are. *)
Lemma render_view (now : Z) (markdown_data : option string) (w : world) :
  render pacific now markdown_data w
  = (tt, mkWorld (cache w) (requests w)
                 (page w ++ view_of (pacific now) markdown_data)).
Proof.
  destruct w as [c rq pg]. unfold render, view_of.
  destruct markdown_data as [[|a r]|]; simpl;
    try (unfold ret; now rewrite app_nil_r).
  destruct (parse_markdown_table (String a r)) as [e|[df ts]];
    unfold bind, show, table_view, failure_view; simpl;
    now rewrite <- !app_assoc.
Qed.

Lemma parse_rows_not_nil (markdown_text : string) (df : DataFrame)
      (timestamp : string) :
  parse_markdown_table markdown_text = inr (df, timestamp) ->
  rows df <> [].
Proof.
  intros H. apply parse_markdown_table_inr in H as [H _].
  now apply parse_table_inr in H as (hi & _ & _ & Hne & _).
Qed.


End PresenterFacts.

Section PipelineFacts.

Variable remote : string -> Z -> Response.
Variable pacific : Z -> string.

Lemma display_pipeline (now : Z) (name url : string) :
  url_of LEADERBOARD_URLS name = Some url ->
  display_leaderboard remote pacific now name
  = Some (pipeline remote pacific now url).
Proof. intros H. unfold display_leaderboard. now rewrite H. Qed.



End PipelineFacts.

Section TabFacts.

Variable remote : string -> Z -> Response.
Variable pacific : Z -> string.







End TabFacts.

Lemma length_append (a b : string) :
  String.length (a +:+ b) = (String.length a + String.length b)%nat.
Proof.
  induction a as [|c a IH]; [reflexivity|].
  change (String c a +:+ b) with (String c (a +:+ b)).
  simpl. now rewrite IH.
Qed.

Lemma append_same_length (s a b : string) :
  s = a +:+ b -> String.length a = String.length s -> a = s.
Proof.
  intros -> H. rewrite length_append in H.
  destruct b; [apply eq_sym, append_nil_r|simpl in H; lia].
Qed.

Lemma prepend_same_length (s a b : string) :
  s = a +:+ b -> String.length b = String.length s -> b = s.
Proof.
  intros -> H. rewrite length_append in H.
  destruct a; [reflexivity|simpl in H; lia].
Qed.

(** X9. When the fetched text parses, the presenter adds exactly three
    elements to the page: the table, with a height of 35 units for each
    row plus 38, which is 73 at least since a table has a row, the caption
    of the timestamp and the caption of the clock; the cache and the
    requests stay as they are. *)
Theorem X9_table_shown (pacific : Z -> string) (now : Z)
        (markdown_data : string) (df : DataFrame) (timestamp : string)
        (w : world) :
  parse_markdown_table markdown_data = inr (df, timestamp) ->
  render pacific now (Some markdown_data) w
  = (tt, mkWorld (cache w) (requests w)
                 (page w
                  ++ [ st_dataframe df (35 * Z.of_nat (length (rows df)) + 38);
                       st_markdown (caption_standings timestamp);
                       st_markdown (caption_fetched (pacific now)) ])) /\
  73 <= 35 * Z.of_nat (length (rows df)) + 38.
Proof.
  intros H. split.
  - rewrite render_view. unfold view_of.
    destruct markdown_data as [|c r]; [discriminate H|].
    now rewrite H.
  - apply parse_rows_not_nil in H.
    destruct (rows df); [contradiction|]. simpl length. lia.
Qed.

Lemma X9_table_shown_witness :
  render pacific_fixed 0 (Some doc_scenario) world0
  = (tt, mkWorld (cache world0) (requests world0)
                 (page world0
                  ++ [ st_dataframe scenario_table
                         (35 * Z.of_nat (length (rows scenario_table)) + 38);
                       st_markdown (caption_standings "2024-01-10");
                       st_markdown (caption_fetched (pacific_fixed 0)) ])) /\
  73 <= 35 * Z.of_nat (length (rows scenario_table)) + 38.
Proof.
  apply (X9_table_shown pacific_fixed 0 doc_scenario scenario_table
                        "2024-01-10" world0).
  vm_compute. reflexivity.
Defined.

(** X10. When the fetched text is not empty and does not parse, the
    presenter adds exactly five elements: the error with the message of the
    exception, a label, the first excerpt, a label and the last excerpt.
    The first excerpt is the front of the text and the last excerpt is its
    back, each of 1000 characters or of the whole text if that is shorter;
    for a text of at most 1000 characters both are the text itself. *)
Theorem X10_failure_shown (pacific : Z -> string) (now : Z)
        (markdown_data : string) (e : exception) (w : world) :
  markdown_data <> EmptyString ->
  parse_markdown_table markdown_data = inl e ->
  let first := Py.str_slice markdown_data 0 1000 in
  let last := Py.str_from markdown_data (-1000) in
  render pacific now (Some markdown_data) w
  = (tt, mkWorld (cache w) (requests w)
                 (page w
                  ++ [ st_error ("Error parsing the leaderboard data: "
                                 +:+ str_of_exception e);
                       st_text "Raw markdown data (first 1000 characters):";
                       st_code first "markdown";
                       st_text "Last 1000 characters of markdown data:";
                       st_code last "markdown" ])) /\
  (exists back, markdown_data = first +:+ back) /\
  (exists front, markdown_data = front +:+ last) /\
  String.length first = Nat.min 1000 (String.length markdown_data) /\
  String.length last = Nat.min 1000 (String.length markdown_data) /\
  ((String.length markdown_data <= 1000)%nat ->
   first = markdown_data /\ last = markdown_data).
Proof.
  intros Hne H first last.
  destruct (first_excerpt markdown_data) as [[back Hb] Hlf].
  destruct (last_excerpt markdown_data) as [[front Hf] Hll].
  fold first in Hb, Hlf. fold last in Hf, Hll.
  repeat split; eauto.
  - rewrite render_view. unfold view_of.
    destruct markdown_data as [|c r]; [contradiction|].
    now rewrite H.
  - apply (append_same_length _ _ _ Hb). lia.
  - apply (prepend_same_length _ _ _ Hf). lia.
Qed.

Lemma X10_failure_shown_witness :
  let first := Py.str_slice doc_no_rows 0 1000 in
  let last := Py.str_from doc_no_rows (-1000) in
  render pacific_fixed 0 (Some doc_no_rows) world0
  = (tt, mkWorld (cache world0) (requests world0)
                 (page world0
                  ++ [ st_error ("Error parsing the leaderboard data: "
                                 +:+ str_of_exception no_data_rows);
                       st_text "Raw markdown data (first 1000 characters):";
                       st_code first "markdown";
                       st_text "Last 1000 characters of markdown data:";
                       st_code last "markdown" ])) /\
  (exists back, doc_no_rows = first +:+ back) /\
  (exists front, doc_no_rows = front +:+ last) /\
  String.length first = Nat.min 1000 (String.length doc_no_rows) /\
  String.length last = Nat.min 1000 (String.length doc_no_rows) /\
  ((String.length doc_no_rows <= 1000)%nat ->
   first = doc_no_rows /\ last = doc_no_rows).
Proof.
  apply (X10_failure_shown pacific_fixed 0 doc_no_rows no_data_rows world0).
  - discriminate.
  - vm_compute. reflexivity.
Defined.



(** X12. When the fetch for a region is made and answered with a status
    other than 200, the tab gets the fetch error naming the location and
    nothing else: one request is issued, no parse is tried and no excerpt
    is shown. *)
Theorem X12_fetch_failure (remote : string -> Z -> Response)
        (pacific : Z -> string) (now : Z) (name url : string) (w : world) :
  url_of LEADERBOARD_URLS name = Some url ->
  (forall v t, cache w !! url = Some (v, t) -> ttl <= now - t) ->
  status_code (remote url now) <> 200 ->
  exists action,
    display_leaderboard remote pacific now name = Some action /\
    page (snd (action w))
    = page w ++ [st_error ("Failed to fetch data from " +:+ url)] /\
    requests (snd (action w)) = requests w ++ [url].
Proof.
  intros Hu Hc Hs. exists (pipeline remote pacific now url).
  split; [now apply display_pipeline|].
  unfold pipeline, bind. rewrite (fetch_miss remote now url w Hc).
  destruct (Z.eqb_spec (status_code (remote url now)) 200); [contradiction|].
  rewrite render_view. simpl. now rewrite app_nil_r.
Qed.

Lemma X12_fetch_failure_witness :
  exists action,
    display_leaderboard remote_global_down pacific_fixed 0 "Global"
    = Some action /\
    page (snd (action world0))
    = page world0 ++ [st_error ("Failed to fetch data from " +:+ url_global)] /\
    requests (snd (action world0)) = requests world0 ++ [url_global].
Proof.
  apply (X12_fetch_failure remote_global_down pacific_fixed 0 "Global"
                           url_global world0).
  - reflexivity.
  - intros v t H. discriminate H.
  - vm_compute. discriminate.
Defined.

(** ** The entry point *)



(** X15. [display_leaderboard] raises the [KeyError] exactly for the names
    other than Global, Americas, Asia and Europe, spelled so. *)
Theorem X15_unknown_region (remote : string -> Z -> Response)
        (pacific : Z -> string) (now : Z) (name : string) :
  display_leaderboard remote pacific now name = None <->
  ~ In name ["Global"; "Americas"; "Asia"; "Europe"].
Proof.
  unfold display_leaderboard, LEADERBOARD_URLS, url_of.
  destruct (String.eqb_spec "Global" name) as [<-|H1];
    [split; [discriminate|intros H; exfalso; apply H; simpl; auto]|].
  destruct (String.eqb_spec "Americas" name) as [<-|H2];
    [split; [discriminate|intros H; exfalso; apply H; simpl; auto]|].
  destruct (String.eqb_spec "Asia" name) as [<-|H3];
    [split; [discriminate|intros H; exfalso; apply H; simpl; auto]|].
  destruct (String.eqb_spec "Europe" name) as [<-|H4];
    [split; [discriminate|intros H; exfalso; apply H; simpl; auto]|].
  split; [|reflexivity]. intros _ [H|[H|[H|[H|[]]]]]; contradiction.
Qed.

(** ** The link of a cell in link markup *)

Section MarkupFacts.

Local Open Scope nat_scope.

Lemma index_app_absent (c : ascii) (a b : string) :
  Py.contains c a = false ->
  Py.index c (a +:+ String c b) = Some (String.length a).
Proof.
  induction a as [|x a IH]; intros H.
  - simpl. now rewrite Ascii.eqb_refl.
  - simpl in H. apply orb_false_iff in H as [Hx Ha].
    change (String x a +:+ String c b) with (String x (a +:+ String c b)).
    simpl. now rewrite Hx, (IH Ha).
Qed.

Lemma substring_app_skip (a b : string) (n : nat) :
  String.substring (String.length a) n (a +:+ b) = String.substring 0 n b.
Proof.
  induction a as [|x a IH]; [reflexivity|].
  change (String x a +:+ b) with (String x (a +:+ b)). exact IH.
Qed.

Lemma substring_front_app (p r : string) :
  String.substring 0 (String.length p) (p +:+ r) = p.
Proof.
  induction p as [|x p IH]; [now destruct r|].
  change (String x p +:+ r) with (String x (p +:+ r)).
  simpl. now rewrite IH.
Qed.

End MarkupFacts.

(** X16. For a cell in link markup, a label without opening parenthesis
    followed by a path in parentheses, the link is the fixed prefix
    followed by the path, whatever characters the path holds. *)
Theorem X16_link_markup (label path : string) :
  Py.contains lparen label = false ->
  link_of (label +:+ "(" +:+ path +:+ ")") = inr (blob_prefix +:+ path).
Proof.
  intros H. unfold link_of.
  change (label +:+ "(" +:+ path +:+ ")")
    with (label +:+ String lparen (path +:+ ")")).
  rewrite (index_app_absent _ _ _ H). f_equal. f_equal.
  rewrite link_slice
    by (rewrite length_append; simpl; lia).
  change (S (String.length label))
    with (String.length (String lparen EmptyString) + String.length label)%nat.
  rewrite Nat.add_comm, <- length_append.
  change (label +:+ String lparen (path +:+ ")"))
    with (label +:+ String lparen EmptyString +:+ path +:+ ")").
  rewrite <- append_assoc.
  rewrite !length_append. simpl String.length.
  replace (String.length label + 1 + (String.length path + 1) - 1
           - (String.length label + 1))%nat
    with (String.length path) by lia.
  replace (String.length label + 1)%nat
    with (String.length (label +:+ String lparen EmptyString))
    by (rewrite length_append; reflexivity).
  rewrite substring_app_skip. apply substring_front_app.
Qed.

Lemma X16_link_markup_witness :
  link_of ("[details]" +:+ "(" +:+ "live/2024/a(b).md" +:+ ")")
  = inr (blob_prefix +:+ "live/2024/a(b).md").
Proof.
  apply (X16_link_markup "[details]" "live/2024/a(b).md").
  reflexivity.
Defined.
